(** * Withdrawal handlers of server.js: validation, provider routing, response

    A shallow embedding of the two variants of [app.post('/api/withdraw')]
    found in server.js:

    - the gateway variant (Stripe / Flutterwave adapters and the Pusher
      notifier), module [Gateway];
    - the legacy variant (demo balance, simulated outcome), module [Legacy].

    Modelling conventions.
    - A field of the JSON body is [None] when it is absent ([undefined]).
      [amount] is a JSON number when present, every other field a string.
    - Numbers are exact rationals ([Q]); [parseFloat] of a number is that
      number.
    - [async]/[await] of a single request is sequential composition.
    - A console line is recorded without its decorative leading glyph, and
      with the string arguments only.
    - What the handler does to the outside (clock, random source, console,
      HTTP calls to the providers) is recorded in a [state]; what the outside
      answers is read from a [world]. *)

From Stdlib Require Import ZArith QArith Qround String Ascii List Bool Lia.
From Stdlib Require Import DecimalString Lqa.
Import ListNotations.

Local Open Scope string_scope.

(** ** JavaScript primitives used by the handlers *)

Module JS.

(** [!!v] for an optional string: [undefined] and the empty string are falsy. *)
Definition truthy (v : option string) : bool :=
  match v with
  | Some s => negb (s =? "")
  | None => false
  end.

(** [v || d] where [d] is a string literal. *)
Definition or_else (v : option string) (d : string) : string :=
  match v with
  | Some s => if s =? "" then d else s
  | None => d
  end.

(** [v === lit] where [lit] is a string literal. *)
Definition strict_eq (v : option string) (lit : string) : bool :=
  match v with
  | Some s => s =? lit
  | None => false
  end.

(** [`${v}`]: string conversion inside a template literal. *)
Definition to_string (v : option string) : string :=
  match v with
  | Some s => s
  | None => "undefined"
  end.

(** [[a, b].includes(v)] for two string literals. *)
Definition includes (lits : list string) (v : option string) : bool :=
  existsb (strict_eq v) lits.

(** Numbers. *)
Definition ltb (x y : Q) : bool := negb (Qle_bool y x).
Definition gtb (x y : Q) : bool := ltb y x.

(** [!!a] for an optional number: [undefined] and [0] are falsy. *)
Definition truthy_num (a : option Q) : bool :=
  match a with
  | Some q => negb (Qeq_bool q 0)
  | None => false
  end.

(** [a < n] and [a > n]: a comparison with [undefined] is false. *)
Definition lt (a : option Q) (n : Q) : bool :=
  match a with
  | Some q => ltb q n
  | None => false
  end.

Definition gt (a : option Q) (n : Q) : bool :=
  match a with
  | Some q => gtb q n
  | None => false
  end.

(** A number value: a rational or [NaN]. *)
Inductive number : Type :=
| NaN
| Num (q : Q).

(** [parseFloat(a)]: the number itself; [NaN] for [undefined]. *)
Definition parseFloat (a : option Q) : number :=
  match a with
  | Some q => Num q
  | None => NaN
  end.

(** The number an arithmetic operator sees in [a]; [NaN] for [undefined]. *)
Definition to_number (a : option Q) : number :=
  match a with
  | Some q => Num q
  | None => NaN
  end.

(** [a * n] and [x - n] for a number literal [n]. *)
Definition times (a : option Q) (n : Q) : number :=
  match a with
  | Some q => Num (q * n)
  | None => NaN
  end.

Definition minus (x : number) (n : Q) : number :=
  match x with
  | Num q => Num (q - n)
  | NaN => NaN
  end.

(** [Math.round(x)]: nearest integer, halves towards plus infinity. *)
Definition round (x : number) : number :=
  match x with
  | Num q => Num (inject_Z (Qfloor (q + (1 # 2))))
  | NaN => NaN
  end.

(** [s.substr(start, len)] for non-negative arguments. *)
Definition substr (start len : nat) (s : string) : string :=
  substring start len s.

Definition upper (c : ascii) : ascii :=
  let n := nat_of_ascii c in
  if (97 <=? n)%nat && (n <=? 122)%nat then ascii_of_nat (n - 32) else c.

(** [s.toUpperCase()] on the characters a base-36 rendering can hold. *)
Fixpoint toUpperCase (s : string) : string :=
  match s with
  | EmptyString => EmptyString
  | String c s' => String (upper c) (toUpperCase s')
  end.

Definition is_digit (c : ascii) : bool :=
  let n := nat_of_ascii c in (48 <=? n)%nat && (n <=? 57)%nat.

Fixpoint all_digits (s : string) : bool :=
  match s with
  | EmptyString => true
  | String c s' => is_digit c && all_digits s'
  end.

(** [/^[0-9]{10}$/.test(s)]. *)
Definition test_10_digits (s : string) : bool :=
  (String.length s =? 10)%nat && all_digits s.

End JS.

(** ** Effects: the outside world and the record of what was done to it *)

(** An error object, as far as the handlers read it: [error.message] and,
    for a rejected HTTP call the server answered, a rendering of
    [error.response.data]. *)
Record js_error := {
  err_message : string;
  err_response_data : option string
}.

(** [new Error(msg)]. *)
Definition Error (msg : string) : js_error :=
  {| err_message := msg; err_response_data := None |}.

(** Argument of [stripe.paymentIntents.create]. *)
Record intent_params := {
  ip_amount : JS.number;
  ip_currency : string;
  ip_description : string;
  ip_meta_transactionId : string;
  ip_meta_withdrawalMethod : string
}.

(** The fields read from the created payment intent. *)
Record payment_intent := {
  pi_id : string;
  pi_client_secret : string
}.

(** Body posted to the transfer network. *)
Record transfer_body := {
  account_bank : string;
  account_number : string;
  tb_amount : JS.number;
  narration : string;
  beneficiary_name : string;
  tb_currency : string;
  tb_reference : string
}.

(** [flutterwaveResponse.data], as far as it is read. *)
Record transfer_data := {
  td_status : option string;
  td_data_id : option Z
}.

(** Payload of the event published on the withdrawal channel. *)
Record notification := {
  n_transactionId : string;
  n_amount : option Q;
  n_method : option string;
  n_status : string;
  n_timestamp : string;
  n_accountName : option string;
  n_reference : string
}.

Inductive event : Type :=
| StripeCreate (p : intent_params)
| AxiosPost (url : string) (body : transfer_body) (authorization : string)
| PusherTrigger (channel name : string) (data : notification)
| Sleep (ms : Z)
| ConsoleLog (line : string)
| ConsoleError (label detail : string).

(** Everything outside the handler: the values the clock and the random
    source deliver (by reading index), the number renderings of the
    runtime, the environment variable and the answers of the three
    services. *)
Record world := {
  date_now : nat -> Z;
  date_toISOString : Z -> string;
  math_random : nat -> Q;
  number_toString : Q -> string;
  number_toString36 : Q -> string;
  FLUTTERWAVE_SECRET_KEY : option string;
  stripe_paymentIntents_create : intent_params -> payment_intent + js_error;
  axios_post : string -> transfer_body -> string -> option transfer_data + js_error;
  pusher_trigger : string -> string -> notification -> unit + js_error
}.

Record state := {
  clock_reads : nat;
  random_reads : nat;
  trace : list event
}.

Definition initial : state :=
  {| clock_reads := 0; random_reads := 0; trace := [] |}.

(** Completion of a computation: a value or a thrown error. *)
Inductive completion (A : Type) : Type :=
| Normal (a : A)
| Throw (e : js_error).

Arguments Normal {A} a.
Arguments Throw {A} e.

Definition M (A : Type) : Type := state -> completion A * state.

Definition ret {A} (a : A) : M A := fun s => (Normal a, s).

Definition bind {A B} (m : M A) (k : A -> M B) : M B :=
  fun s =>
    match m s with
    | (Normal a, s') => k a s'
    | (Throw e, s') => (Throw e, s')
    end.

Definition throw {A} (e : js_error) : M A := fun s => (Throw e, s).

(** [try { body } catch (e) { handler e }]. *)
Definition try_catch {A} (body : M A) (handler : js_error -> M A) : M A :=
  fun s =>
    match body s with
    | (Normal a, s') => (Normal a, s')
    | (Throw e, s') => handler e s'
    end.

Declare Scope js_scope.
Delimit Scope js_scope with js.
Notation "x <- m ;; k" := (bind m (fun x => k))
  (at level 61, m at next level, right associativity) : js_scope.
Notation "m ;; k" := (bind m (fun _ => k))
  (at level 61, right associativity) : js_scope.

Definition emit (e : event) : M unit :=
  fun s => (Normal tt,
            {| clock_reads := clock_reads s;
               random_reads := random_reads s;
               trace := trace s ++ [e] |}).

(** [Date.now()]. *)
Definition Date_now (w : world) : M Z :=
  fun s => (Normal (date_now w (clock_reads s)),
            {| clock_reads := S (clock_reads s);
               random_reads := random_reads s;
               trace := trace s |}).

(** [new Date().toISOString()]. *)
Definition new_Date_toISOString (w : world) : M string :=
  fun s => (Normal (date_toISOString w (date_now w (clock_reads s))),
            {| clock_reads := S (clock_reads s);
               random_reads := random_reads s;
               trace := trace s |}).

(** [Math.random()]. *)
Definition Math_random (w : world) : M Q :=
  fun s => (Normal (math_random w (random_reads s)),
            {| clock_reads := clock_reads s;
               random_reads := S (random_reads s);
               trace := trace s |}).

(** Invocation records read off a trace. *)
Definition is_stripe_call (e : event) : bool :=
  match e with StripeCreate _ => true | _ => false end.

Definition is_flutterwave_call (e : event) : bool :=
  match e with AxiosPost _ _ _ => true | _ => false end.

Definition is_pusher_call (e : event) : bool :=
  match e with PusherTrigger _ _ _ => true | _ => false end.

Definition stripe_calls (s : state) : nat :=
  List.length (filter is_stripe_call (trace s)).

Definition flutterwave_calls (s : state) : nat :=
  List.length (filter is_flutterwave_call (trace s)).

Definition pusher_calls (s : state) : nat :=
  List.length (filter is_pusher_call (trace s)).

Definition adapter_calls (s : state) : nat :=
  (stripe_calls s + flutterwave_calls s)%nat.

Local Open Scope js_scope.

(** ** The gateway variant *)

Module Gateway.

(** [req.body], the fields the handler destructures. *)
Record body := {
  amount : option Q;
  accountNumber : option string;
  bankCode : option string;
  accountName : option string;
  withdrawalMethod : option string;
  phoneNumber : option string;
  paymentMethod : option string
}.

(** What an adapter returns. *)
Inductive paymentResult : Type :=
| StripeResult (gateway paymentId status clientSecret : string)
| FlutterwaveResult (gateway : string) (transferId : option Z)
    (status : option string) (reference : string).

(** The answer of the handler: the HTTP status and the JSON object. *)
Record response := {
  statusCode : Z;
  success : bool;
  message : string;
  transactionId : option string;
  reference : option string;
  paymentGateway : option string;
  fees : option Q;
  netAmount : option JS.number;
  estimatedCompletion : option string;
  paymentDetails : option paymentResult
}.

(** [res.status(code).json({ success: false, message })]. *)
Definition failure (code : Z) (msg : string) : response :=
  {| statusCode := code; success := false; message := msg;
     transactionId := None; reference := None; paymentGateway := None;
     fees := None; netAmount := None; estimatedCompletion := None;
     paymentDetails := None |}.

Definition amount_toString (w : world) (a : option Q) : string :=
  match a with
  | Some q => number_toString w q
  | None => "undefined"
  end.

(** [await stripe.paymentIntents.create(p)]. *)
Definition stripe_create (w : world) (p : intent_params) : M payment_intent :=
  emit (StripeCreate p) ;;
  match stripe_paymentIntents_create w p with
  | inl intent => ret intent
  | inr e => throw e
  end.

(** [await axios.post(url, body, { headers })]. *)
Definition axios_post_json (w : world) (url : string) (b : transfer_body)
    (authorization : string) : M (option transfer_data) :=
  emit (AxiosPost url b authorization) ;;
  match axios_post w url b authorization with
  | inl r => ret r
  | inr e => throw e
  end.

(** [await pusher.trigger(channel, name, data)]. *)
Definition trigger (w : world) (channel name : string) (d : notification) : M unit :=
  emit (PusherTrigger channel name d) ;;
  match pusher_trigger w channel name d with
  | inl _ => ret tt
  | inr e => throw e
  end.

Definition processStripePayment (w : world) (amount : option Q)
    (description : option string) (transactionId : string) : M paymentResult :=
  try_catch
    (paymentIntent <- stripe_create w
       {| ip_amount := JS.round (JS.times amount 100);
          ip_currency := "kes";
          ip_description :=
            "Withdrawal " ++ transactionId ++ " for " ++ JS.to_string description;
          ip_meta_transactionId := transactionId;
          ip_meta_withdrawalMethod := "bank" |} ;;
     emit (ConsoleLog ("Stripe payment intent created: " ++ pi_id paymentIntent)) ;;
     ret (StripeResult "stripe" (pi_id paymentIntent) "processing"
            (pi_client_secret paymentIntent)))
    (fun error => throw (Error ("Stripe error: " ++ err_message error))).

Definition processFlutterwavePayment (w : world) (amount : option Q)
    (phoneNumber accountName : option string) (transactionId : string)
    : M paymentResult :=
  try_catch
    (flutterwaveResponse <- axios_post_json w
       "https://api.flutterwave.com/v3/transfers"
       {| account_bank := "999999";
          account_number := JS.or_else phoneNumber "1234567890";
          tb_amount := JS.parseFloat amount;
          narration := "Withdrawal " ++ transactionId;
          beneficiary_name := JS.or_else accountName "Beneficiary";
          tb_currency := "KES";
          tb_reference := transactionId |}
       ("Bearer " ++ JS.to_string (FLUTTERWAVE_SECRET_KEY w)) ;;
     emit (ConsoleLog "Flutterwave transfer initiated:") ;;
     match flutterwaveResponse with
     | Some data =>
         ret (FlutterwaveResult "flutterwave" (td_data_id data) (td_status data)
                transactionId)
     | None => throw (Error "Cannot read properties of undefined (reading 'data')")
     end)
    (fun error =>
       emit (ConsoleError "Flutterwave API error:"
               (JS.or_else (err_response_data error) (err_message error))) ;;
       throw (Error "Flutterwave processing failed")).

(** [const fees = withdrawalMethod === 'bank' ? 50 : 25]. *)
Definition fees_for (withdrawalMethod : option string) : Q :=
  if JS.strict_eq withdrawalMethod "bank" then 50 else 25.

(** The routing block inside the inner [try]. *)
Definition route (w : world) (b : body) (transactionId : string) : M paymentResult :=
  if JS.strict_eq (paymentMethod b) "stripe" then
    processStripePayment w (amount b) (accountName b) transactionId
  else if JS.strict_eq (paymentMethod b) "flutterwave" then
    processFlutterwavePayment w (amount b) (phoneNumber b) (accountName b) transactionId
  else
    processFlutterwavePayment w (amount b) (phoneNumber b) (accountName b) transactionId.

(** The notification block: its own [try]/[catch]. *)
Definition notify (w : world) (b : body) (transactionId reference : string) : M unit :=
  try_catch
    (timestamp <- new_Date_toISOString w ;;
     trigger w "withdrawal-channel" "withdrawal-event"
       {| n_transactionId := transactionId;
          n_amount := amount b;
          n_method := withdrawalMethod b;
          n_status := "completed";
          n_timestamp := timestamp;
          n_accountName := accountName b;
          n_reference := reference |})
    (fun pusherError =>
       emit (ConsoleError "Pusher notification error:" (err_message pusherError))).

(** [app.post('/api/withdraw', async (req, res) => ...)]. *)
Definition withdraw (w : world) (b : body) : M response :=
  try_catch
    (if negb (JS.truthy_num (amount b)) || JS.lt (amount b) 100 then
       ret (failure 400 "Amount must be at least KES 100")
     else if JS.gt (amount b) 1000000 then
       ret (failure 400 "Amount cannot exceed KES 1,000,000")
     else
       t1 <- Date_now w ;;
       r <- Math_random w ;;
       let transactionId :=
         "TXN_" ++ number_toString w (inject_Z t1) ++ "_"
         ++ JS.toUpperCase (JS.substr 2 9 (number_toString36 w r)) in
       t2 <- Date_now w ;;
       let reference := "REF_" ++ number_toString w (inject_Z t2) in
       let fees := fees_for (withdrawalMethod b) in
       let netAmount := JS.minus (JS.parseFloat (amount b)) fees in
       routed <- try_catch
         (paymentResult <- route w b transactionId ;; ret (inl paymentResult))
         (fun paymentError =>
            emit (ConsoleError "Payment processing error:" (err_message paymentError)) ;;
            ret (inr (failure 400
                        ("Payment processing failed: " ++ err_message paymentError)))) ;;
       match routed with
       | inr early => ret early
       | inl paymentResult =>
           notify w b transactionId reference ;;
           ret {| statusCode := 200;
                  success := true;
                  message := "Withdrawal of KES " ++ amount_toString w (amount b)
                             ++ " processed successfully";
                  transactionId := Some transactionId;
                  reference := Some reference;
                  paymentGateway := Some (JS.or_else (paymentMethod b) "flutterwave");
                  fees := Some fees;
                  netAmount := Some netAmount;
                  estimatedCompletion := Some "Instant to 24 hours";
                  paymentDetails := Some paymentResult |}
       end)
    (fun error =>
       emit (ConsoleError "Withdrawal error:" (err_message error)) ;;
       ret (failure 500 ("Internal server error: " ++ err_message error))).

End Gateway.

(** ** The legacy variant *)

Module Legacy.

(** [const demoBalance = 100000]. *)
Definition demoBalance : Q := 100000.

Record body := {
  amount : option Q;
  method : option string;
  accountDetails : option string;
  phoneNumber : option string;
  accountName : option string
}.

Record response := {
  success : bool;
  message : string;
  transactionId : option string;
  r_amount : option Q;
  fees : option Q;
  netAmount : option JS.number;
  r_method : option string;
  status : option string;
  timestamp : option string;
  reference : option string
}.

(** [res.json({ success: false, message })]. *)
Definition failure (msg : string) : response :=
  {| success := false; message := msg; transactionId := None;
     r_amount := None; fees := None; netAmount := None; r_method := None;
     status := None; timestamp := None; reference := None |}.

Definition amount_toString (w : world) (a : option Q) : string :=
  match a with
  | Some q => number_toString w q
  | None => "undefined"
  end.

(** [!phoneNumber || !/^[0-9]{10}$/.test(phoneNumber)]. *)
Definition bad_phone (phoneNumber : option string) : bool :=
  negb (JS.truthy phoneNumber)
  || negb (JS.test_10_digits (JS.to_string phoneNumber)).

(** The handler from the simulated processing delay on: what runs once
    every validation has passed. *)
Definition settle (w : world) (b : body) : M response :=
  emit (Sleep 1500) ;;
  t1 <- Date_now w ;;
  r1 <- Math_random w ;;
  let transactionId :=
    "txn_" ++ number_toString w (inject_Z t1) ++ "_"
    ++ JS.substr 2 9 (number_toString36 w r1) in
  let fees := if JS.strict_eq (method b) "bank" then 50 else 25 in
  let netAmount := JS.minus (JS.to_number (amount b)) fees in
  r2 <- Math_random w ;;
  let isSuccess := JS.gtb r2 (1 # 10) in
  if isSuccess then
    emit (ConsoleLog ("Withdrawal SUCCESS: KES " ++ amount_toString w (amount b)
                      ++ " via " ++ JS.to_string (method b))) ;;
    ts <- new_Date_toISOString w ;;
    t2 <- Date_now w ;;
    ret {| success := true;
           message := "Withdrawal of KES " ++ amount_toString w (amount b)
                      ++ " processed successfully!";
           transactionId := Some transactionId;
           r_amount := amount b;
           fees := Some fees;
           netAmount := Some netAmount;
           r_method := method b;
           status := Some "completed";
           timestamp := Some ts;
           reference := Some ("REF" ++ number_toString w (inject_Z t2)) |}
  else
    emit (ConsoleLog ("Withdrawal FAILED: KES " ++ amount_toString w (amount b)
                      ++ " via " ++ JS.to_string (method b))) ;;
    ret {| success := false;
           message := "Payment processing failed. Please try again.";
           transactionId := Some transactionId;
           r_amount := None; fees := None; netAmount := None;
           r_method := None;
           status := Some "failed";
           timestamp := None; reference := None |}.

(** [app.post('/api/withdraw', async (req, res) => ...)]. *)
Definition withdraw (w : world) (b : body) : M response :=
  try_catch
    (emit (ConsoleLog "Withdrawal request:") ;;
     if negb (JS.truthy_num (amount b)) || JS.lt (amount b) 100 then
       ret (failure "Amount must be at least KES 100")
     else if JS.gt (amount b) demoBalance then
       ret (failure ("Insufficient balance. Available: KES "
                     ++ number_toString w demoBalance))
     else if JS.gt (amount b) 1000000 then
       ret (failure "Maximum withdrawal is KES 1,000,000")
     else if negb (JS.truthy (method b))
             || negb (JS.includes ["bank"; "mpesa"] (method b)) then
       ret (failure "Please select withdrawal method (bank or mpesa)")
     else if JS.strict_eq (method b) "bank" then
       if negb (JS.truthy (accountDetails b)) || negb (JS.truthy (accountName b)) then
         ret (failure "Bank account details required")
       else settle w b
     else if JS.strict_eq (method b) "mpesa" then
       if bad_phone (phoneNumber b) then
         ret (failure "Valid 10-digit M-Pesa number required")
       else settle w b
     else settle w b)
    (fun error =>
       emit (ConsoleError "Withdrawal error:" (err_message error)) ;;
       ret (failure ("System error: " ++ err_message error))).

End Legacy.

(** ** Vocabulary of the statements *)

(** The state in which the gateway handler reaches its routing block when it
    starts from [initial]: two clock readings, one random draw, nothing
    sent. *)
Definition after_ids : state :=
  {| clock_reads := 2; random_reads := 1; trace := [] |}.

(** The identifiers the gateway handler builds when it starts from
    [initial]. *)
Definition txn_id (w : world) : string :=
  "TXN_" ++ number_toString w (inject_Z (date_now w 0)) ++ "_"
  ++ JS.toUpperCase (JS.substr 2 9 (number_toString36 w (math_random w 0))).

Definition ref_id (w : world) : string :=
  "REF_" ++ number_toString w (inject_Z (date_now w 1)).

(** [s] after the events [es] have been sent out, in that order. *)
Definition sent (s : state) (es : list event) : state :=
  {| clock_reads := clock_reads s;
     random_reads := random_reads s;
     trace := trace s ++ es |}.

(** The state in which the legacy handler answers a request it rejects. *)
Definition legacy_logged : state :=
  sent initial [ConsoleLog "Withdrawal request:"].

(** The argument the card adapter passes to [stripe.paymentIntents.create]. *)
Definition intent_of (amount : option Q) (description : option string)
    (transactionId : string) : intent_params :=
  {| ip_amount := JS.round (JS.times amount 100);
     ip_currency := "kes";
     ip_description :=
       "Withdrawal " ++ transactionId ++ " for " ++ JS.to_string description;
     ip_meta_transactionId := transactionId;
     ip_meta_withdrawalMethod := "bank" |}.

(** The notification the gateway handler publishes, stamped with the clock
    reading of state [s]. *)
Definition published (w : world) (b : Gateway.body) (s : state) : notification :=
  {| n_transactionId := txn_id w;
     n_amount := Gateway.amount b;
     n_method := Gateway.withdrawalMethod b;
     n_status := "completed";
     n_timestamp := date_toISOString w (date_now w (clock_reads s));
     n_accountName := Gateway.accountName b;
     n_reference := ref_id w |}.

(** The success object the gateway handler answers with, for the result
    [paymentResult] of the adapter. *)
Definition success_response (w : world) (b : Gateway.body)
    (paymentResult : Gateway.paymentResult) : Gateway.response :=
  {| Gateway.statusCode := 200;
     Gateway.success := true;
     Gateway.message :=
       "Withdrawal of KES " ++ Gateway.amount_toString w (Gateway.amount b)
       ++ " processed successfully";
     Gateway.transactionId := Some (txn_id w);
     Gateway.reference := Some (ref_id w);
     Gateway.paymentGateway :=
       Some (JS.or_else (Gateway.paymentMethod b) "flutterwave");
     Gateway.fees := Some (Gateway.fees_for (Gateway.withdrawalMethod b));
     Gateway.netAmount :=
       Some (JS.minus (JS.parseFloat (Gateway.amount b))
               (Gateway.fees_for (Gateway.withdrawalMethod b)));
     Gateway.estimatedCompletion := Some "Instant to 24 hours";
     Gateway.paymentDetails := Some paymentResult |}.

(** The state the notification block leaves behind when entered in [s]. *)
Definition notified (w : world) (b : Gateway.body) (s : state) : state :=
  {| clock_reads := S (clock_reads s);
     random_reads := random_reads s;
     trace :=
       trace s
       ++ PusherTrigger "withdrawal-channel" "withdrawal-event" (published w b s)
          :: match pusher_trigger w "withdrawal-channel" "withdrawal-event"
                     (published w b s) with
             | inl _ => []
             | inr e => [ConsoleError "Pusher notification error:" (err_message e)]
             end |}.

(** The body sent to the transfer network for the given arguments. *)
Definition transfer_of (amount : option Q) (phoneNumber accountName : option string)
    (transactionId : string) : transfer_body :=
  {| account_bank := "999999";
     account_number := JS.or_else phoneNumber "1234567890";
     tb_amount := JS.parseFloat amount;
     narration := "Withdrawal " ++ transactionId;
     beneficiary_name := JS.or_else accountName "Beneficiary";
     tb_currency := "KES";
     tb_reference := transactionId |}.

Definition transfers_url : string := "https://api.flutterwave.com/v3/transfers".

Definition bearer (w : world) : string :=
  "Bearer " ++ JS.to_string (FLUTTERWAVE_SECRET_KEY w).

(** Worlds that differ in the answer of one service. *)
Definition with_pusher (w : world)
    (p : string -> string -> notification -> unit + js_error) : world :=
  {| date_now := date_now w;
     date_toISOString := date_toISOString w;
     math_random := math_random w;
     number_toString := number_toString w;
     number_toString36 := number_toString36 w;
     FLUTTERWAVE_SECRET_KEY := FLUTTERWAVE_SECRET_KEY w;
     stripe_paymentIntents_create := stripe_paymentIntents_create w;
     axios_post := axios_post w;
     pusher_trigger := p |}.

Definition with_axios (w : world)
    (a : string -> transfer_body -> string -> option transfer_data + js_error) : world :=
  {| date_now := date_now w;
     date_toISOString := date_toISOString w;
     math_random := math_random w;
     number_toString := number_toString w;
     number_toString36 := number_toString36 w;
     FLUTTERWAVE_SECRET_KEY := FLUTTERWAVE_SECRET_KEY w;
     stripe_paymentIntents_create := stripe_paymentIntents_create w;
     axios_post := a;
     pusher_trigger := pusher_trigger w |}.

Definition with_stripe (w : world)
    (c : intent_params -> payment_intent + js_error) : world :=
  {| date_now := date_now w;
     date_toISOString := date_toISOString w;
     math_random := math_random w;
     number_toString := number_toString w;
     number_toString36 := number_toString36 w;
     FLUTTERWAVE_SECRET_KEY := FLUTTERWAVE_SECRET_KEY w;
     stripe_paymentIntents_create := c;
     axios_post := axios_post w;
     pusher_trigger := pusher_trigger w |}.

(** ** Sample inputs *)

(** A world in which every service answers: the clock starts at
    1700000000000 ms, the random source delivers one half (rendered "0.i" in
    base 36), and whole numbers are printed in decimal. *)
Definition calm_world : world :=
  {| date_now := fun k => (1700000000000 + Z.of_nat k)%Z;
     date_toISOString := fun _ => "2023-11-14T22:13:20.000Z";
     math_random := fun _ => 1 # 2;
     number_toString := fun q => NilEmpty.string_of_int (Z.to_int (Qfloor q));
     number_toString36 := fun _ => "0.i";
     FLUTTERWAVE_SECRET_KEY := Some "FLWSECK_TEST";
     stripe_paymentIntents_create :=
       fun _ => inl {| pi_id := "pi_1"; pi_client_secret := "pi_1_secret" |};
     axios_post :=
       fun _ _ _ => inl (Some {| td_status := Some "success"; td_data_id := Some 7%Z |});
     pusher_trigger := fun _ _ _ => inl tt |}.

Definition timeout_error : js_error :=
  {| err_message := "timeout of 1000ms exceeded"; err_response_data := None |}.

(** The request of the README. *)
Definition readme_request : Gateway.body :=
  {| Gateway.amount := Some 1000;
     Gateway.accountNumber := Some "1234567890";
     Gateway.bankCode := Some "01";
     Gateway.accountName := Some "John Doe";
     Gateway.withdrawalMethod := Some "bank";
     Gateway.phoneNumber := None;
     Gateway.paymentMethod := Some "stripe" |}.

(** The answer to it in [calm_world]. *)
Definition readme_answer : Gateway.response :=
  success_response calm_world readme_request
    (Gateway.StripeResult "stripe" "pi_1" "processing" "pi_1_secret").

(** A world whose transfer network does not answer in time. *)
Definition stalled_world : world :=
  with_axios calm_world (fun _ _ _ => inr timeout_error).

(** A world whose notifier rejects every event. *)
Definition mute_world : world :=
  with_pusher calm_world (fun _ _ _ => inr (Error "Pusher unavailable")).

Definition request (a : Q) (wm pn an pm : option string) : Gateway.body :=
  {| Gateway.amount := Some a;
     Gateway.accountNumber := None;
     Gateway.bankCode := None;
     Gateway.accountName := an;
     Gateway.withdrawalMethod := wm;
     Gateway.phoneNumber := pn;
     Gateway.paymentMethod := pm |}.

Definition legacy_request (a : Q) (m ad pn an : option string) : Legacy.body :=
  {| Legacy.amount := Some a;
     Legacy.method := m;
     Legacy.accountDetails := ad;
     Legacy.phoneNumber := pn;
     Legacy.accountName := an |}.

(** ** The deposit handler of the legacy variant *)

Module Deposit.

(** [req.body], the fields the handler destructures. *)
Record body := {
  amount : option Q;
  returnUrl : option string
}.

(** Argument of [stripe.checkout.sessions.create]; the fields of its one
    line item are listed with the others. *)
Record session_params := {
  payment_method_types : list string;
  currency : string;
  product_name : string;
  product_description : string;
  unit_amount : JS.number;
  quantity : Z;
  mode : string;
  success_url : string;
  cancel_url : string;
  meta_type : string;
  meta_amount : string
}.

(** The fields read from the created session. *)
Record checkout_session := {
  session_id : string;
  session_url : string
}.

Record response := {
  success : bool;
  message : string;
  sessionId : option string;
  url : option string;
  r_amount : option Q
}.

(** What the handler does to the outside: the call to Stripe Checkout and
    the console. *)
Inductive call : Type :=
| CheckoutCreate (p : session_params)
| Console (e : event).

(** [res.json({ success: false, message })]. *)
Definition failure (msg : string) : response :=
  {| success := false; message := msg; sessionId := None; url := None;
     r_amount := None |}.

(** The [catch] block, entered after the calls [done]. *)
Definition caught (error : js_error) (done : list call) : response * list call :=
  (failure ("Failed to create deposit: " ++ err_message error),
   (done ++ [Console (ConsoleError "Deposit error:" (err_message error))])%list).

(** The object passed to Stripe Checkout for a present amount [q]. *)
Definition session_for (w : world) (q : Q) (returnUrl : option string)
    : session_params :=
  {| payment_method_types := ["card"];
     currency := "kes";
     product_name := "Money Deposit";
     product_description :=
       "Deposit KES " ++ number_toString w q ++ " to your account";
     unit_amount := JS.round (JS.times (Some q) 100);
     quantity := 1;
     mode := "payment";
     success_url :=
       JS.or_else returnUrl
         "https://bank-front-chi.vercel.app/?success=true&type=deposit";
     cancel_url :=
       JS.or_else returnUrl "https://bank-front-chi.vercel.app/?canceled=true";
     meta_type := "deposit";
     meta_amount := number_toString w q |}.

(** [app.post('/api/deposit', async (req, res) => ...)], against the Stripe
    Checkout service [create]. The handler returns its answer and the calls
    it made, in order. *)
Definition deposit (w : world)
    (create : session_params -> checkout_session + js_error) (b : body)
    : response * list call :=
  if negb (JS.truthy_num (amount b)) || JS.lt (amount b) 100 then
    (failure "Minimum deposit is KES 100", [])
  else if JS.gt (amount b) 500000 then
    (failure "Maximum deposit is KES 500,000", [])
  else
    match amount b with
    | None =>
        caught (Error "Cannot read properties of undefined (reading 'toString')") []
    | Some q =>
        match create (session_for w q (returnUrl b)) with
        | inl session =>
            ({| success := true;
                message := "Deposit session created";
                sessionId := Some (session_id session);
                url := Some (session_url session);
                r_amount := amount b |},
             [CheckoutCreate (session_for w q (returnUrl b))])
        | inr error => caught error [CheckoutCreate (session_for w q (returnUrl b))]
        end
    end.



End Deposit.

(** ** Further vocabulary *)

(** [b] with other values in the two fields the gateway handler destructures
    and never reads. *)
Definition with_account (b : Gateway.body) (accountNumber bankCode : option string)
    : Gateway.body :=
  {| Gateway.amount := Gateway.amount b;
     Gateway.accountNumber := accountNumber;
     Gateway.bankCode := bankCode;
     Gateway.accountName := Gateway.accountName b;
     Gateway.withdrawalMethod := Gateway.withdrawalMethod b;
     Gateway.phoneNumber := Gateway.phoneNumber b;
     Gateway.paymentMethod := Gateway.paymentMethod b |}.

(** No character of [s] is a lower-case ASCII letter. *)
Fixpoint no_lower_case (s : string) : bool :=
  match s with
  | EmptyString => true
  | String c s' =>
      negb ((97 <=? nat_of_ascii c)%nat && (nat_of_ascii c <=? 122)%nat)
      && no_lower_case s'
  end.

(** The random suffix of the gateway transaction id. *)
Definition txn_suffix (w : world) : string :=
  JS.toUpperCase (JS.substr 2 9 (number_toString36 w (math_random w 0))).

(** The legacy handler lets a request through to its processing step. *)
Definition legacy_details_ok (b : Legacy.body) : Prop :=
  (Legacy.method b = Some "bank"
   /\ JS.truthy (Legacy.accountDetails b) = true
   /\ JS.truthy (Legacy.accountName b) = true)
  \/ (Legacy.method b = Some "mpesa"
      /\ exists p, Legacy.phoneNumber b = Some p /\ JS.test_10_digits p = true).

(** The identifier the legacy handler builds when it starts from
    [initial]. *)
Definition legacy_txn_id (w : world) : string :=
  "txn_" ++ number_toString w (inject_Z (date_now w 0)) ++ "_"
  ++ JS.substr 2 9 (number_toString36 w (math_random w 0)).

(** A Stripe Checkout service that accepts every session. *)
Definition calm_checkout (p : Deposit.session_params)
    : Deposit.checkout_session + js_error :=
  inl {| Deposit.session_id := "cs_test_1";
         Deposit.session_url := "https://checkout.stripe.com/c/pay/cs_test_1" |}.

(** A world like [calm_world] whose card processor declines. *)
Definition declined_world : world :=
  with_stripe calm_world (fun _ => inr (Error "Your card was declined.")).

(** ** The handlers on the scenarios of the specification *)

Example ten_digits_accepted : JS.test_10_digits "0712345678" = true.
Proof. reflexivity. Qed.

Example five_digits_refused : JS.test_10_digits "12345" = false.
Proof. reflexivity. Qed.

Example letters_refused : JS.test_10_digits "07123x5678" = false.
Proof. reflexivity. Qed.

Example suffix_in_upper_case : JS.toUpperCase (JS.substr 2 9 "0.4fzyo82mvyr") = "4FZYO82MV".
Proof. reflexivity. Qed.

(** amount 1000, bank, stripe: success, fees 50, net amount 950, gateway
    "stripe". *)
Example readme_scenario :
  fst (Gateway.withdraw calm_world readme_request initial) = Normal readme_answer
  /\ Gateway.fees readme_answer = Some 50
  /\ Gateway.netAmount readme_answer = Some (JS.Num 950)
  /\ Gateway.paymentGateway readme_answer = Some "stripe"
  /\ Gateway.transactionId readme_answer = Some "TXN_1700000000000_I".
Proof. repeat split; vm_compute; reflexivity. Qed.

(** amount 50 and amount 2000000 are refused. *)
Example refused_amounts :
  fst (Gateway.withdraw calm_world (request 50 None None None None) initial)
  = Normal (Gateway.failure 400 "Amount must be at least KES 100")
  /\ fst (Gateway.withdraw calm_world (request 2000000 None None None None) initial)
     = Normal (Gateway.failure 400 "Amount cannot exceed KES 1,000,000").
Proof. split; vm_compute; reflexivity. Qed.

(** The legacy handler answers an amount above its demo balance with the
    balance message, also above 1,000,000. *)
Example legacy_above_balance :
  fst (Legacy.withdraw calm_world
         (legacy_request 2000000 (Some "bank") (Some "1234567890") None
            (Some "John Doe")) initial)
  = Normal (Legacy.failure "Insufficient balance. Available: KES 100000").
Proof. vm_compute. reflexivity. Qed.

(** ** Comparisons *)

Lemma ltb_true (x y : Q) : JS.ltb x y = true <-> (x < y)%Q.
Proof.
  unfold JS.ltb. rewrite negb_true_iff.
  split; intros H.
  - apply Qnot_le_lt. intros Hle.
    apply Qle_bool_iff in Hle. congruence.
  - case_eq (Qle_bool y x); intros E; [| reflexivity].
    apply Qle_bool_iff in E. exfalso. exact (Qlt_not_le _ _ H E).
Qed.

Lemma ltb_false (x y : Q) : JS.ltb x y = false <-> (y <= x)%Q.
Proof.
  unfold JS.ltb. rewrite negb_false_iff. apply Qle_bool_iff.
Qed.

Lemma nonzero_above_100 (q : Q) : (100 <= q)%Q -> Qeq_bool q 0 = false.
Proof.
  intros H. case_eq (Qeq_bool q 0); intros E; [| reflexivity].
  apply Qeq_bool_iff in E. rewrite E in H.
  exfalso. revert H. apply Qlt_not_le. reflexivity.
Qed.

(** The two amount checks of both handlers, on a present amount. *)
Lemma low_check_rejects (q : Q) :
  (q < 100)%Q -> negb (JS.truthy_num (Some q)) || JS.lt (Some q) 100 = true.
Proof.
  intros H. apply orb_true_iff. right. apply ltb_true. exact H.
Qed.

Lemma low_check_passes (q : Q) :
  (100 <= q)%Q -> negb (JS.truthy_num (Some q)) || JS.lt (Some q) 100 = false.
Proof.
  intros H. apply orb_false_iff. split.
  - simpl. rewrite (nonzero_above_100 q H). reflexivity.
  - apply ltb_false. exact H.
Qed.

Lemma high_check (q n : Q) : JS.gt (Some q) n = true <-> (n < q)%Q.
Proof. apply ltb_true. Qed.

Lemma high_check_passes (q n : Q) : (q <= n)%Q -> JS.gt (Some q) n = false.
Proof. intros H. apply ltb_false. exact H. Qed.

(** ** Strings *)

Lemma strict_eq_true (v : option string) (lit : string) :
  JS.strict_eq v lit = true <-> v = Some lit.
Proof.
  destruct v as [s |]; simpl.
  - rewrite String.eqb_eq. split; [intros -> | intros [= ->]]; reflexivity.
  - split; discriminate.
Qed.

Lemma strict_eq_false (v : option string) (lit : string) :
  JS.strict_eq v lit = false <-> v <> Some lit.
Proof.
  rewrite <- strict_eq_true. destruct (JS.strict_eq v lit); split; congruence.
Qed.

Lemma or_else_spec (v : option string) (d : string) :
  JS.or_else v d = if JS.truthy v then JS.to_string v else d.
Proof.
  destruct v as [s |]; [| reflexivity].
  simpl. destruct (s =? ""); reflexivity.
Qed.

(** ** Invocation counts along a trace *)

Lemma sent_sent (s : state) (es fs : list event) :
  sent (sent s es) fs = sent s (es ++ fs).
Proof. unfold sent. simpl. rewrite <- app_assoc. reflexivity. Qed.

Lemma emit_sent (e : event) (s : state) : emit e s = (Normal tt, sent s [e]).
Proof. reflexivity. Qed.

Lemma stripe_calls_sent (s : state) (es : list event) :
  stripe_calls (sent s es)
  = (stripe_calls s + List.length (filter is_stripe_call es))%nat.
Proof. unfold stripe_calls, sent. simpl. rewrite filter_app, length_app. reflexivity. Qed.

Lemma flutterwave_calls_sent (s : state) (es : list event) :
  flutterwave_calls (sent s es)
  = (flutterwave_calls s + List.length (filter is_flutterwave_call es))%nat.
Proof.
  unfold flutterwave_calls, sent. simpl. rewrite filter_app, length_app. reflexivity.
Qed.

Lemma pusher_calls_sent (s : state) (es : list event) :
  pusher_calls (sent s es)
  = (pusher_calls s + List.length (filter is_pusher_call es))%nat.
Proof. unfold pusher_calls, sent. simpl. rewrite filter_app, length_app. reflexivity. Qed.

(** ** The adapters *)

Lemma processStripePayment_eq w a d t s :
  Gateway.processStripePayment w a d t s =
  match stripe_paymentIntents_create w (intent_of a d t) with
  | inl intent =>
      (Normal (Gateway.StripeResult "stripe" (pi_id intent) "processing"
                 (pi_client_secret intent)),
       sent s [StripeCreate (intent_of a d t);
               ConsoleLog ("Stripe payment intent created: " ++ pi_id intent)])
  | inr e =>
      (Throw (Error ("Stripe error: " ++ err_message e)),
       sent s [StripeCreate (intent_of a d t)])
  end.
Proof.
  unfold Gateway.processStripePayment, Gateway.stripe_create, try_catch, bind.
  fold (intent_of a d t). rewrite emit_sent.
  destruct (stripe_paymentIntents_create w (intent_of a d t)) as [intent | e].
  - unfold ret. rewrite emit_sent, sent_sent. reflexivity.
  - reflexivity.
Qed.

Lemma processFlutterwavePayment_eq w a pn an t s :
  Gateway.processFlutterwavePayment w a pn an t s =
  let post := AxiosPost transfers_url (transfer_of a pn an t) (bearer w) in
  match axios_post w transfers_url (transfer_of a pn an t) (bearer w) with
  | inl (Some data) =>
      (Normal (Gateway.FlutterwaveResult "flutterwave" (td_data_id data)
                 (td_status data) t),
       sent s [post; ConsoleLog "Flutterwave transfer initiated:"])
  | inl None =>
      (Throw (Error "Flutterwave processing failed"),
       sent s [post; ConsoleLog "Flutterwave transfer initiated:";
               ConsoleError "Flutterwave API error:"
                 "Cannot read properties of undefined (reading 'data')"])
  | inr e =>
      (Throw (Error "Flutterwave processing failed"),
       sent s [post;
               ConsoleError "Flutterwave API error:"
                 (JS.or_else (err_response_data e) (err_message e))])
  end.
Proof.
  unfold Gateway.processFlutterwavePayment, Gateway.axios_post_json, try_catch, bind.
  fold transfers_url. fold (transfer_of a pn an t). fold (bearer w).
  rewrite emit_sent.
  destruct (axios_post w transfers_url (transfer_of a pn an t) (bearer w))
    as [[data |] | e]; unfold ret, throw; repeat rewrite emit_sent;
    repeat rewrite sent_sent; reflexivity.
Qed.

(** The routing block calls the card adapter for "stripe" and the transfer
    adapter for everything else. *)
Lemma route_stripe w b t s :
  Gateway.paymentMethod b = Some "stripe" ->
  Gateway.route w b t s
  = Gateway.processStripePayment w (Gateway.amount b) (Gateway.accountName b) t s.
Proof. intros H. unfold Gateway.route. rewrite H. reflexivity. Qed.

Lemma route_other w b t s :
  Gateway.paymentMethod b <> Some "stripe" ->
  Gateway.route w b t s
  = Gateway.processFlutterwavePayment w (Gateway.amount b) (Gateway.phoneNumber b)
      (Gateway.accountName b) t s.
Proof.
  intros H. unfold Gateway.route.
  apply strict_eq_false in H. rewrite H.
  destruct (JS.strict_eq (Gateway.paymentMethod b) "flutterwave"); reflexivity.
Qed.

(** The notification block never throws. *)
Lemma notify_eq w b s :
  Gateway.notify w b (txn_id w) (ref_id w) s = (Normal tt, notified w b s).
Proof.
  unfold Gateway.notify, Gateway.trigger, try_catch, bind, new_Date_toISOString.
  fold (published w b s). rewrite emit_sent.
  unfold notified.
  destruct (pusher_trigger w "withdrawal-channel" "withdrawal-event" (published w b s))
    as [[] | e]; unfold ret, throw; repeat rewrite emit_sent; unfold sent; simpl;
    repeat rewrite <- app_assoc; reflexivity.
Qed.

(** ** The gateway handler on a request whose amount passes both checks *)

Lemma withdraw_rejects_low w b q :
  Gateway.amount b = Some q -> (q < 100)%Q ->
  Gateway.withdraw w b initial
  = (Normal (Gateway.failure 400 "Amount must be at least KES 100"), initial).
Proof.
  intros Ha Hq. unfold Gateway.withdraw, try_catch.
  rewrite Ha, (low_check_rejects q Hq). reflexivity.
Qed.

Lemma withdraw_rejects_high w b q :
  Gateway.amount b = Some q -> (1000000 < q)%Q ->
  Gateway.withdraw w b initial
  = (Normal (Gateway.failure 400 "Amount cannot exceed KES 1,000,000"), initial).
Proof.
  intros Ha Hq. unfold Gateway.withdraw, try_catch.
  assert (Hlow : (100 <= q)%Q).
  { apply Qlt_le_weak. eapply Qlt_trans; [| exact Hq]. reflexivity. }
  rewrite Ha, (low_check_passes q Hlow).
  rewrite (proj2 (high_check q 1000000) Hq). reflexivity.
Qed.

Lemma withdraw_valid w b q :
  Gateway.amount b = Some q -> (100 <= q)%Q -> (q <= 1000000)%Q ->
  Gateway.withdraw w b initial =
  match Gateway.route w b (txn_id w) after_ids with
  | (Normal paymentResult, s) =>
      (Normal (success_response w b paymentResult), notified w b s)
  | (Throw e, s) =>
      (Normal (Gateway.failure 400 ("Payment processing failed: " ++ err_message e)),
       sent s [ConsoleError "Payment processing error:" (err_message e)])
  end.
Proof.
  intros Ha Hlo Hhi. unfold Gateway.withdraw.
  rewrite Ha, (low_check_passes q Hlo), (high_check_passes q _ Hhi), <- Ha.
  unfold try_catch at 1. unfold bind at 1 2 3. unfold Date_now at 1, Math_random at 1.
  cbn [clock_reads random_reads trace initial].
  unfold Date_now at 1. cbn [clock_reads random_reads trace].
  fold (txn_id w). fold (ref_id w). fold after_ids.
  unfold bind at 1. unfold try_catch at 1. unfold bind at 1.
  destruct (Gateway.route w b (txn_id w) after_ids) as [[paymentResult | e] s].
  - unfold ret at 1. unfold bind. rewrite notify_eq. reflexivity.
  - unfold bind. rewrite emit_sent. reflexivity.
Qed.

(** What the routing block leaves in the trace, from [after_ids]. *)
Lemma route_counts w b t :
  let s := snd (Gateway.route w b t after_ids) in
  pusher_calls s = 0%nat
  /\ (Gateway.paymentMethod b = Some "stripe" ->
      stripe_calls s = 1%nat /\ flutterwave_calls s = 0%nat)
  /\ (Gateway.paymentMethod b <> Some "stripe" ->
      stripe_calls s = 0%nat /\ flutterwave_calls s = 1%nat).
Proof.
  split; [| split].
  - destruct (JS.strict_eq (Gateway.paymentMethod b) "stripe") eqn:E.
    + apply strict_eq_true in E. rewrite (route_stripe w b t _ E).
      rewrite processStripePayment_eq.
      destruct (stripe_paymentIntents_create w _); reflexivity.
    + apply strict_eq_false in E. rewrite (route_other w b t _ E).
      rewrite processFlutterwavePayment_eq. cbv zeta.
      destruct (axios_post w _ _ _) as [[? |] | ?]; reflexivity.
  - intros E. rewrite (route_stripe w b t _ E), processStripePayment_eq.
    destruct (stripe_paymentIntents_create w _); split; reflexivity.
  - intros E. rewrite (route_other w b t _ E), processFlutterwavePayment_eq.
    cbv zeta. destruct (axios_post w _ _ _) as [[? |] | ?]; split; reflexivity.
Qed.

Lemma notified_counts w b s :
  stripe_calls (notified w b s) = stripe_calls s
  /\ flutterwave_calls (notified w b s) = flutterwave_calls s
  /\ pusher_calls (notified w b s) = S (pusher_calls s).
Proof.
  unfold stripe_calls, flutterwave_calls, pusher_calls, notified. simpl.
  rewrite !filter_app, !length_app. simpl.
  destruct (pusher_trigger w _ _ _); simpl; repeat split; lia.
Qed.

(** The final state of a validated request: the adapter calls are those of
    the routing block. *)
Lemma withdraw_valid_counts w b q :
  Gateway.amount b = Some q -> (100 <= q)%Q -> (q <= 1000000)%Q ->
  let s := snd (Gateway.route w b (txn_id w) after_ids) in
  let s' := snd (Gateway.withdraw w b initial) in
  stripe_calls s' = stripe_calls s /\ flutterwave_calls s' = flutterwave_calls s.
Proof.
  intros Ha Hlo Hhi. cbv zeta. rewrite (withdraw_valid w b q Ha Hlo Hhi).
  destruct (Gateway.route w b (txn_id w) after_ids) as [[paymentResult | e] s]; simpl.
  - destruct (notified_counts w b s) as (H1 & H2 & _). split; assumption.
  - rewrite stripe_calls_sent, flutterwave_calls_sent. simpl. split; lia.
Qed.

(** A validated request reaches one adapter, whatever its other fields. *)
Lemma validated_request_calls_one_adapter w b q :
  Gateway.amount b = Some q -> (100 <= q)%Q -> (q <= 1000000)%Q ->
  adapter_calls (snd (Gateway.withdraw w b initial)) = 1%nat.
Proof.
  intros Ha Hlo Hhi.
  destruct (withdraw_valid_counts w b q Ha Hlo Hhi) as [Hs Hf].
  destruct (route_counts w b (txn_id w)) as (_ & Hstripe & Hother).
  unfold adapter_calls. rewrite Hs, Hf.
  destruct (JS.strict_eq (Gateway.paymentMethod b) "stripe") eqn:E.
  - apply strict_eq_true in E. destruct (Hstripe E) as [-> ->]. reflexivity.
  - apply strict_eq_false in E. destruct (Hother E) as [-> ->]. reflexivity.
Qed.

Lemma withdraw_rejects_absent w b :
  Gateway.amount b = None ->
  Gateway.withdraw w b initial
  = (Normal (Gateway.failure 400 "Amount must be at least KES 100"), initial).
Proof.
  intros Ha. unfold Gateway.withdraw, try_catch. rewrite Ha. reflexivity.
Qed.

(** A success answer can only come from a validated request whose adapter
    returned. *)
Lemma withdraw_success_inv w b resp st :
  Gateway.withdraw w b initial = (Normal resp, st) ->
  Gateway.success resp = true ->
  exists q paymentResult s,
    Gateway.amount b = Some q /\ (100 <= q)%Q /\ (q <= 1000000)%Q
    /\ Gateway.route w b (txn_id w) after_ids = (Normal paymentResult, s)
    /\ resp = success_response w b paymentResult
    /\ st = notified w b s.
Proof.
  intros Hrun Hok.
  destruct (Gateway.amount b) as [q |] eqn:Ha.
  - destruct (Qlt_le_dec q 100) as [Hlow | Hlo].
    { rewrite (withdraw_rejects_low w b q Ha Hlow) in Hrun.
      injection Hrun as <- <-. discriminate Hok. }
    destruct (Qlt_le_dec 1000000 q) as [Hhigh | Hhi].
    { rewrite (withdraw_rejects_high w b q Ha Hhigh) in Hrun.
      injection Hrun as <- <-. discriminate Hok. }
    rewrite (withdraw_valid w b q Ha Hlo Hhi) in Hrun.
    destruct (Gateway.route w b (txn_id w) after_ids) as [[paymentResult | e] s].
    + injection Hrun as <- <-. exists q, paymentResult, s. repeat split; assumption.
    + injection Hrun as <- <-. discriminate Hok.
  - rewrite (withdraw_rejects_absent w b Ha) in Hrun.
    injection Hrun as <- <-. discriminate Hok.
Qed.

(** ** The legacy handler: its validation chain *)

Lemma legacy_amount_passes b q :
  Legacy.amount b = Some q -> (100 <= q)%Q -> (q <= Legacy.demoBalance)%Q ->
  negb (JS.truthy_num (Legacy.amount b)) || JS.lt (Legacy.amount b) 100 = false
  /\ JS.gt (Legacy.amount b) Legacy.demoBalance = false
  /\ JS.gt (Legacy.amount b) 1000000 = false.
Proof.
  intros Ha Hlo Hhi. rewrite Ha. repeat split.
  - apply low_check_passes. exact Hlo.
  - apply high_check_passes. exact Hhi.
  - apply high_check_passes. eapply Qle_trans; [exact Hhi |]. discriminate.
Qed.

Lemma legacy_rejects_method w b q :
  Legacy.amount b = Some q -> (100 <= q)%Q -> (q <= Legacy.demoBalance)%Q ->
  Legacy.method b <> Some "bank" -> Legacy.method b <> Some "mpesa" ->
  Legacy.withdraw w b initial
  = (Normal (Legacy.failure "Please select withdrawal method (bank or mpesa)"),
     legacy_logged).
Proof.
  intros Ha Hlo Hhi Hb Hm.
  destruct (legacy_amount_passes b q Ha Hlo Hhi) as (E1 & E2 & E3).
  apply strict_eq_false in Hb, Hm.
  assert (Hinc : JS.includes ["bank"; "mpesa"] (Legacy.method b) = false).
  { unfold JS.includes. cbn [existsb]. rewrite Hb, Hm. reflexivity. }
  unfold Legacy.withdraw, try_catch, bind. rewrite emit_sent.
  rewrite E1, E2, E3, Hinc. cbn [negb]. rewrite orb_true_r. reflexivity.
Qed.

Lemma legacy_rejects_phone w b q :
  Legacy.amount b = Some q -> (100 <= q)%Q -> (q <= Legacy.demoBalance)%Q ->
  Legacy.method b = Some "mpesa" ->
  (forall s, Legacy.phoneNumber b = Some s -> JS.test_10_digits s = false) ->
  Legacy.withdraw w b initial
  = (Normal (Legacy.failure "Valid 10-digit M-Pesa number required"), legacy_logged).
Proof.
  intros Ha Hlo Hhi Hm Hp.
  destruct (legacy_amount_passes b q Ha Hlo Hhi) as (E1 & E2 & E3).
  assert (Hbad : Legacy.bad_phone (Legacy.phoneNumber b) = true).
  { unfold Legacy.bad_phone. destruct (Legacy.phoneNumber b) as [s |]; [| reflexivity].
    simpl JS.to_string. rewrite (Hp s eq_refl). apply orb_true_r. }
  unfold Legacy.withdraw, try_catch, bind. rewrite emit_sent.
  rewrite E1, E2, E3, Hm, Hbad. reflexivity.
Qed.

Lemma legacy_rejects_bank w b q :
  Legacy.amount b = Some q -> (100 <= q)%Q -> (q <= Legacy.demoBalance)%Q ->
  Legacy.method b = Some "bank" ->
  Legacy.accountDetails b = None \/ Legacy.accountName b = None ->
  Legacy.withdraw w b initial
  = (Normal (Legacy.failure "Bank account details required"), legacy_logged).
Proof.
  intros Ha Hlo Hhi Hm Hd.
  destruct (legacy_amount_passes b q Ha Hlo Hhi) as (E1 & E2 & E3).
  assert (Hmiss : negb (JS.truthy (Legacy.accountDetails b))
                  || negb (JS.truthy (Legacy.accountName b)) = true).
  { destruct Hd as [-> | ->]; [reflexivity | apply orb_true_r]. }
  unfold Legacy.withdraw, try_catch, bind. rewrite emit_sent.
  rewrite E1, E2, E3, Hm. simpl JS.truthy. simpl JS.includes. simpl JS.strict_eq.
  cbn [negb orb]. rewrite Hmiss. reflexivity.
Qed.

(** ** Properties of the withdrawal handlers *)

(** Comparisons of number literals. *)
Ltac literal := unfold Legacy.demoBalance, Qle, Qlt; simpl; lia.

(** C1, as stated, fails: a request below the minimum amount is answered
    before the routing block, so no adapter is invoked for it, whatever its
    paymentMethod. *)
Lemma rejected_request_reaches_no_adapter :
  let b := request 50 (Some "bank") None (Some "John Doe") (Some "stripe") in
  let out := Gateway.withdraw calm_world b initial in
  Gateway.paymentMethod b = Some "stripe"
  /\ fst out = Normal (Gateway.failure 400 "Amount must be at least KES 100")
  /\ stripe_calls (snd out) = 0%nat
  /\ flutterwave_calls (snd out) = 0%nat
  /\ adapter_calls (snd out) <> 1%nat.
Proof. vm_compute. repeat split; try reflexivity. discriminate. Qed.

(** C1, amended: for every withdrawal request whose amount passes the two
    amount checks (100 <= amount <= 1,000,000), the handler invokes exactly
    one provider adapter: the Stripe adapter when paymentMethod is "stripe",
    the Flutterwave adapter for every other paymentMethod, absent included. *)
Theorem valid_request_reaches_selected_adapter w b q :
  Gateway.amount b = Some q -> (100 <= q)%Q -> (q <= 1000000)%Q ->
  let s := snd (Gateway.withdraw w b initial) in
  adapter_calls s = 1%nat
  /\ (Gateway.paymentMethod b = Some "stripe" ->
      stripe_calls s = 1%nat /\ flutterwave_calls s = 0%nat)
  /\ (Gateway.paymentMethod b <> Some "stripe" ->
      flutterwave_calls s = 1%nat /\ stripe_calls s = 0%nat).
Proof.
  intros Ha Hlo Hhi. cbv zeta.
  split; [exact (validated_request_calls_one_adapter w b q Ha Hlo Hhi) |].
  destruct (withdraw_valid_counts w b q Ha Hlo Hhi) as [-> ->].
  destruct (route_counts w b (txn_id w)) as (_ & Hstripe & Hother).
  split; intros E.
  - exact (Hstripe E).
  - destruct (Hother E) as [H0 H1]. split; assumption.
Qed.

Lemma valid_request_reaches_selected_adapter_witness :
  (Gateway.amount readme_request = Some 1000 /\ (100 <= 1000)%Q /\ (1000 <= 1000000)%Q)
  /\ stripe_calls (snd (Gateway.withdraw calm_world readme_request initial)) = 1%nat
  /\ flutterwave_calls
       (snd (Gateway.withdraw calm_world
               (request 1000 (Some "mpesa") (Some "0712345678") None None) initial))
     = 1%nat.
Proof.
  split; [split; [reflexivity | split; literal] |].
  split.
  - apply (valid_request_reaches_selected_adapter calm_world readme_request 1000);
      [reflexivity | literal | literal | reflexivity].
  - apply (valid_request_reaches_selected_adapter calm_world
             (request 1000 (Some "mpesa") (Some "0712345678") None None) 1000);
      [reflexivity | literal | literal | discriminate].
Defined.

(** C2, as stated, fails on the gateway handler: a request without
    withdrawalMethod and with a valid amount is routed to the Flutterwave
    adapter and answered with success. *)
Lemma gateway_accepts_missing_method :
  let b := request 1000 None (Some "0712345678") (Some "Jane Doe") None in
  let out := Gateway.withdraw calm_world b initial in
  Gateway.withdrawalMethod b = None
  /\ match fst out with
     | Normal resp =>
         Gateway.success resp = true /\ Gateway.statusCode resp = 200%Z
     | Throw _ => False
     end
  /\ flutterwave_calls (snd out) = 1%nat.
Proof. vm_compute. repeat split; reflexivity. Qed.

(** C2, amended: the withdrawal method is validated by the legacy handler
    only, on its field [method]. There, for every request whose amount
    passes the amount checks (100 <= amount <= demo balance 100,000) and
    whose method is neither "bank" nor "mpesa" (absent included), the
    handler answers success=false with the message asking to select a
    withdrawal method, and no provider is called. The gateway handler does
    not check withdrawalMethod: such a request with an amount in
    [100, 1,000,000] reaches exactly one provider adapter. *)
Theorem method_is_checked_by_legacy_only w lb lq b q :
  Legacy.amount lb = Some lq -> (100 <= lq)%Q -> (lq <= Legacy.demoBalance)%Q ->
  Legacy.method lb <> Some "bank" -> Legacy.method lb <> Some "mpesa" ->
  Gateway.amount b = Some q -> (100 <= q)%Q -> (q <= 1000000)%Q ->
  Gateway.withdrawalMethod b <> Some "bank" ->
  Gateway.withdrawalMethod b <> Some "mpesa" ->
  (exists resp s,
      Legacy.withdraw w lb initial = (Normal resp, s)
      /\ Legacy.success resp = false
      /\ Legacy.message resp = "Please select withdrawal method (bank or mpesa)"
      /\ adapter_calls s = 0%nat)
  /\ adapter_calls (snd (Gateway.withdraw w b initial)) = 1%nat.
Proof.
  intros La Llo Lhi Lb Lm Ha Hlo Hhi _ _. split.
  - exists (Legacy.failure "Please select withdrawal method (bank or mpesa)"),
      legacy_logged.
    rewrite (legacy_rejects_method w lb lq La Llo Lhi Lb Lm).
    repeat split.
  - exact (validated_request_calls_one_adapter w b q Ha Hlo Hhi).
Qed.

Lemma method_is_checked_by_legacy_only_witness :
  let lb := legacy_request 1000 (Some "paypal") None None None in
  let b := request 1000 None None None None in
  (exists resp s,
      Legacy.withdraw calm_world lb initial = (Normal resp, s)
      /\ Legacy.success resp = false
      /\ Legacy.message resp = "Please select withdrawal method (bank or mpesa)"
      /\ adapter_calls s = 0%nat)
  /\ adapter_calls (snd (Gateway.withdraw calm_world b initial)) = 1%nat.
Proof.
  apply (method_is_checked_by_legacy_only calm_world
           (legacy_request 1000 (Some "paypal") None None None) 1000
           (request 1000 None None None None) 1000);
    first [reflexivity | literal | discriminate].
Defined.

(** C3, as stated, fails on the gateway handler: an mpesa request with the
    five-digit phoneNumber "12345" and a valid amount is routed to the
    Flutterwave adapter, which submits the transfer to that number, and the
    handler answers with success. *)
Lemma gateway_accepts_short_phone :
  let b := request 1000 (Some "mpesa") (Some "12345") (Some "Jane Doe") None in
  let out := Gateway.withdraw calm_world b initial in
  JS.test_10_digits "12345" = false
  /\ match fst out with
     | Normal resp =>
         Gateway.success resp = true /\ Gateway.statusCode resp = 200%Z
     | Throw _ => False
     end
  /\ flutterwave_calls (snd out) = 1%nat
  /\ hd_error (trace (snd out))
     = Some (AxiosPost transfers_url
               (transfer_of (Some 1000) (Some "12345") (Some "Jane Doe")
                  (txn_id calm_world))
               (bearer calm_world)).
Proof. vm_compute. repeat split; reflexivity. Qed.

(** C3, amended: the M-Pesa number is validated by the legacy handler only.
    There, for every request whose amount passes the amount checks
    (100 <= amount <= demo balance 100,000) with method "mpesa" whose
    phoneNumber does not match ^[0-9]{10}$ (absent included), the handler
    answers success=false with the message that a valid 10-digit number is
    required, and no provider is called. The gateway handler does not check
    phoneNumber: such a request with an amount in [100, 1,000,000] reaches
    exactly one provider adapter. *)
Theorem phone_is_checked_by_legacy_only w lb lq b q :
  Legacy.amount lb = Some lq -> (100 <= lq)%Q -> (lq <= Legacy.demoBalance)%Q ->
  Legacy.method lb = Some "mpesa" ->
  (forall s, Legacy.phoneNumber lb = Some s -> JS.test_10_digits s = false) ->
  Gateway.amount b = Some q -> (100 <= q)%Q -> (q <= 1000000)%Q ->
  Gateway.withdrawalMethod b = Some "mpesa" ->
  (forall s, Gateway.phoneNumber b = Some s -> JS.test_10_digits s = false) ->
  (exists resp s,
      Legacy.withdraw w lb initial = (Normal resp, s)
      /\ Legacy.success resp = false
      /\ Legacy.message resp = "Valid 10-digit M-Pesa number required"
      /\ adapter_calls s = 0%nat)
  /\ adapter_calls (snd (Gateway.withdraw w b initial)) = 1%nat.
Proof.
  intros La Llo Lhi Lm Lp Ha Hlo Hhi _ _. split.
  - exists (Legacy.failure "Valid 10-digit M-Pesa number required"), legacy_logged.
    rewrite (legacy_rejects_phone w lb lq La Llo Lhi Lm Lp).
    repeat split.
  - exact (validated_request_calls_one_adapter w b q Ha Hlo Hhi).
Qed.

Lemma phone_is_checked_by_legacy_only_witness :
  let lb := legacy_request 1000 (Some "mpesa") None (Some "12345") None in
  let b := request 1000 (Some "mpesa") None None None in
  (exists resp s,
      Legacy.withdraw calm_world lb initial = (Normal resp, s)
      /\ Legacy.success resp = false
      /\ Legacy.message resp = "Valid 10-digit M-Pesa number required"
      /\ adapter_calls s = 0%nat)
  /\ adapter_calls (snd (Gateway.withdraw calm_world b initial)) = 1%nat.
Proof.
  apply (phone_is_checked_by_legacy_only calm_world
           (legacy_request 1000 (Some "mpesa") None (Some "12345") None) 1000
           (request 1000 (Some "mpesa") None None None) 1000);
    first [reflexivity | literal
          | intros s [= <-]; reflexivity | intros s; discriminate].
Defined.

(** C4, as stated, fails on the gateway handler: a bank request without
    accountNumber and accountName and with a valid amount is routed to the
    Flutterwave adapter, which names the beneficiary "Beneficiary", and the
    handler answers with success. *)
Lemma gateway_accepts_missing_bank_details :
  let b := request 1000 (Some "bank") None None None in
  let out := Gateway.withdraw calm_world b initial in
  Gateway.accountNumber b = None /\ Gateway.accountName b = None
  /\ match fst out with
     | Normal resp =>
         Gateway.success resp = true /\ Gateway.statusCode resp = 200%Z
     | Throw _ => False
     end
  /\ flutterwave_calls (snd out) = 1%nat.
Proof. vm_compute. repeat split; reflexivity. Qed.

(** C4, amended: the bank details are validated by the legacy handler only,
    on its fields [accountDetails] and [accountName]. There, for every
    request whose amount passes the amount checks (100 <= amount <= demo
    balance 100,000) with method "bank" where accountDetails or accountName
    is absent, the handler answers success=false with the message that bank
    account details are required, and no provider is called. The gateway
    handler does not check accountNumber or accountName: such a request
    with an amount in [100, 1,000,000] reaches exactly one provider
    adapter. *)
Theorem bank_details_are_checked_by_legacy_only w lb lq b q :
  Legacy.amount lb = Some lq -> (100 <= lq)%Q -> (lq <= Legacy.demoBalance)%Q ->
  Legacy.method lb = Some "bank" ->
  Legacy.accountDetails lb = None \/ Legacy.accountName lb = None ->
  Gateway.amount b = Some q -> (100 <= q)%Q -> (q <= 1000000)%Q ->
  Gateway.withdrawalMethod b = Some "bank" ->
  Gateway.accountNumber b = None \/ Gateway.accountName b = None ->
  (exists resp s,
      Legacy.withdraw w lb initial = (Normal resp, s)
      /\ Legacy.success resp = false
      /\ Legacy.message resp = "Bank account details required"
      /\ adapter_calls s = 0%nat)
  /\ adapter_calls (snd (Gateway.withdraw w b initial)) = 1%nat.
Proof.
  intros La Llo Lhi Lm Ld Ha Hlo Hhi _ _. split.
  - exists (Legacy.failure "Bank account details required"), legacy_logged.
    rewrite (legacy_rejects_bank w lb lq La Llo Lhi Lm Ld).
    repeat split.
  - exact (validated_request_calls_one_adapter w b q Ha Hlo Hhi).
Qed.

Lemma bank_details_are_checked_by_legacy_only_witness :
  let lb := legacy_request 1000 (Some "bank") (Some "1234567890") None None in
  let b := request 1000 (Some "bank") None None (Some "stripe") in
  (exists resp s,
      Legacy.withdraw calm_world lb initial = (Normal resp, s)
      /\ Legacy.success resp = false
      /\ Legacy.message resp = "Bank account details required"
      /\ adapter_calls s = 0%nat)
  /\ adapter_calls (snd (Gateway.withdraw calm_world b initial)) = 1%nat.
Proof.
  apply (bank_details_are_checked_by_legacy_only calm_world
           (legacy_request 1000 (Some "bank") (Some "1234567890") None None) 1000
           (request 1000 (Some "bank") None None (Some "stripe")) 1000);
    first [reflexivity | literal | right; reflexivity].
Defined.

(** C5: a request with amount < 100 is answered success=false with the
    minimum-of-100 message, a request with amount > 1,000,000 with the
    maximum-of-1,000,000 message, both with HTTP 400; the handler is then
    still in its initial state: the clock and the random source have not
    been read (no transaction id was generated) and nothing was sent (no
    adapter was invoked). *)
Theorem amount_out_of_bounds_is_rejected_first w b q b' q' :
  Gateway.amount b = Some q -> (q < 100)%Q ->
  Gateway.amount b' = Some q' -> (1000000 < q')%Q ->
  (Gateway.withdraw w b initial
   = (Normal (Gateway.failure 400 "Amount must be at least KES 100"), initial)
   /\ Gateway.withdraw w b' initial
      = (Normal (Gateway.failure 400 "Amount cannot exceed KES 1,000,000"), initial))
  /\ (forall msg,
        Gateway.success (Gateway.failure 400 msg) = false
        /\ Gateway.transactionId (Gateway.failure 400 msg) = None)
  /\ (clock_reads initial = 0%nat /\ random_reads initial = 0%nat
      /\ adapter_calls initial = 0%nat).
Proof.
  intros Ha Hq Ha' Hq'. split; [split |].
  - exact (withdraw_rejects_low w b q Ha Hq).
  - exact (withdraw_rejects_high w b' q' Ha' Hq').
  - split; [intros msg; split; reflexivity | repeat split].
Qed.

Lemma amount_out_of_bounds_is_rejected_first_witness :
  let low := request 50 (Some "bank") None (Some "John Doe") (Some "stripe") in
  let high := request 2000000 (Some "bank") None (Some "John Doe") (Some "stripe") in
  ((50 < 100)%Q /\ (1000000 < 2000000)%Q)
  /\ Gateway.withdraw calm_world low initial
     = (Normal (Gateway.failure 400 "Amount must be at least KES 100"), initial)
  /\ Gateway.withdraw calm_world high initial
     = (Normal (Gateway.failure 400 "Amount cannot exceed KES 1,000,000"), initial).
Proof.
  split; [split; literal |].
  apply (amount_out_of_bounds_is_rejected_first calm_world
           (request 50 (Some "bank") None (Some "John Doe") (Some "stripe")) 50
           (request 2000000 (Some "bank") None (Some "John Doe") (Some "stripe"))
           2000000);
    first [reflexivity | literal].
Defined.

(** C6: for a request that passes validation, the success response carries
    fees = 50 when withdrawalMethod is "bank" and fees = 25 for every other
    withdrawalMethod (absent included), and netAmount = amount - fees. *)
Theorem fees_and_net_amount w b q resp s :
  Gateway.amount b = Some q -> (100 <= q)%Q -> (q <= 1000000)%Q ->
  Gateway.withdraw w b initial = (Normal resp, s) ->
  Gateway.success resp = true ->
  (Gateway.withdrawalMethod b = Some "bank" ->
   Gateway.fees resp = Some 50 /\ Gateway.netAmount resp = Some (JS.Num (q - 50)))
  /\ (Gateway.withdrawalMethod b <> Some "bank" ->
      Gateway.fees resp = Some 25 /\ Gateway.netAmount resp = Some (JS.Num (q - 25))).
Proof.
  intros Ha _ _ Hrun Hok.
  destruct (withdraw_success_inv w b resp s Hrun Hok)
    as (q0 & paymentResult & s0 & Ha0 & _ & _ & _ & -> & _).
  unfold success_response. cbn [Gateway.fees Gateway.netAmount].
  rewrite Ha. cbn [JS.parseFloat JS.minus]. unfold Gateway.fees_for.
  split; intros E.
  - apply strict_eq_true in E. rewrite E. split; reflexivity.
  - apply strict_eq_false in E. rewrite E. split; reflexivity.
Qed.

Lemma fees_and_net_amount_witness :
  (Gateway.withdraw calm_world readme_request initial
   = (Normal readme_answer, snd (Gateway.withdraw calm_world readme_request initial))
   /\ Gateway.success readme_answer = true)
  /\ Gateway.fees readme_answer = Some 50
  /\ Gateway.netAmount readme_answer = Some (JS.Num (1000 - 50)).
Proof.
  assert (Hrun : Gateway.withdraw calm_world readme_request initial
                 = (Normal readme_answer,
                    snd (Gateway.withdraw calm_world readme_request initial)))
    by (vm_compute; reflexivity).
  split; [split; [exact Hrun | reflexivity] |].
  apply (fees_and_net_amount calm_world readme_request 1000 readme_answer
           (snd (Gateway.withdraw calm_world readme_request initial)));
    [reflexivity | literal | literal | exact Hrun | reflexivity | reflexivity].
Defined.

(** What an error thrown by the routing block can be. *)
Lemma route_throw_inv w b t s0 e s :
  Gateway.route w b t s0 = (Throw e, s) ->
  (Gateway.paymentMethod b = Some "stripe"
   /\ exists e0,
        stripe_paymentIntents_create w
          (intent_of (Gateway.amount b) (Gateway.accountName b) t) = inr e0
        /\ err_message e = "Stripe error: " ++ err_message e0)
  \/ (Gateway.paymentMethod b <> Some "stripe"
      /\ err_message e = "Flutterwave processing failed").
Proof.
  intros H.
  destruct (JS.strict_eq (Gateway.paymentMethod b) "stripe") eqn:E.
  - apply strict_eq_true in E. left. split; [exact E |].
    rewrite (route_stripe w b t s0 E), processStripePayment_eq in H.
    destruct (stripe_paymentIntents_create w _) as [intent | e0]; [discriminate |].
    injection H as <- _. exists e0. split; reflexivity.
  - apply strict_eq_false in E. right. split; [exact E |].
    rewrite (route_other w b t s0 E), processFlutterwavePayment_eq in H.
    cbv zeta in H.
    destruct (axios_post w _ _ _) as [[data |] | e0];
      [discriminate | injection H as <- _ | injection H as <- _]; reflexivity.
Qed.

(** C7: when the selected adapter throws an error [e], the handler answers
    HTTP 400, success=false, with the message "Payment processing failed: "
    followed by the reason of [e]; the notifier is not invoked and the other
    adapter is not tried. The reason is "Stripe error: " followed by the
    upstream message for the card adapter, and the fixed text
    "Flutterwave processing failed" for the transfer adapter. *)
Theorem adapter_failure_aborts w b q e s :
  Gateway.amount b = Some q -> (100 <= q)%Q -> (q <= 1000000)%Q ->
  Gateway.route w b (txn_id w) after_ids = (Throw e, s) ->
  let out := Gateway.withdraw w b initial in
  (exists resp,
      fst out = Normal resp
      /\ Gateway.statusCode resp = 400%Z
      /\ Gateway.success resp = false
      /\ Gateway.message resp = "Payment processing failed: " ++ err_message e)
  /\ pusher_calls (snd out) = 0%nat
  /\ adapter_calls (snd out) = 1%nat
  /\ (Gateway.paymentMethod b = Some "stripe" -> flutterwave_calls (snd out) = 0%nat)
  /\ (Gateway.paymentMethod b <> Some "stripe" -> stripe_calls (snd out) = 0%nat)
  /\ ((exists e0,
          stripe_paymentIntents_create w
            (intent_of (Gateway.amount b) (Gateway.accountName b) (txn_id w)) = inr e0
          /\ err_message e = "Stripe error: " ++ err_message e0)
      \/ err_message e = "Flutterwave processing failed").
Proof.
  intros Ha Hlo Hhi Hroute. cbv zeta.
  pose proof (validated_request_calls_one_adapter w b q Ha Hlo Hhi) as Hone.
  destruct (withdraw_valid_counts w b q Ha Hlo Hhi) as [Hs Hf].
  destruct (route_counts w b (txn_id w)) as (Hp & Hstripe & Hother).
  rewrite Hs, Hf.
  rewrite (withdraw_valid w b q Ha Hlo Hhi) in *. rewrite Hroute in *.
  cbn [fst snd] in *.
  split; [| split; [| split; [| split; [| split]]]].
  - eexists. repeat split.
  - rewrite pusher_calls_sent, Hp. reflexivity.
  - exact Hone.
  - intros E. exact (proj2 (Hstripe E)).
  - intros E. exact (proj1 (Hother E)).
  - destruct (route_throw_inv w b _ _ e s Hroute) as [[_ H] | [_ H]];
      [left; exact H | right; exact H].
Qed.

Lemma adapter_failure_aborts_witness :
  let b := request 1000 (Some "mpesa") (Some "0712345678") (Some "Jane Doe") None in
  let out := Gateway.withdraw stalled_world b initial in
  fst (Gateway.route stalled_world b (txn_id stalled_world) after_ids)
  = Throw (Error "Flutterwave processing failed")
  /\ fst out
     = Normal (Gateway.failure 400
                 "Payment processing failed: Flutterwave processing failed")
  /\ pusher_calls (snd out) = 0%nat
  /\ adapter_calls (snd out) = 1%nat.
Proof.
  cbv zeta.
  destruct (adapter_failure_aborts stalled_world
              (request 1000 (Some "mpesa") (Some "0712345678") (Some "Jane Doe") None)
              1000 (Error "Flutterwave processing failed")
              (snd (Gateway.route stalled_world
                      (request 1000 (Some "mpesa") (Some "0712345678")
                         (Some "Jane Doe") None)
                      (txn_id stalled_world) after_ids)))
    as (_ & Hp & Ha & _); [reflexivity | literal | literal | reflexivity |].
  split; [reflexivity | split; [reflexivity | split; [exact Hp | exact Ha]]].
Defined.

(** C8: when the adapter call succeeds and the notifier throws, the error is
    caught and logged, and the response is the success response: the same
    one, field for field, as when the notifier accepts the event. *)
Theorem notifier_failure_is_swallowed w b q paymentResult s e :
  Gateway.amount b = Some q -> (100 <= q)%Q -> (q <= 1000000)%Q ->
  Gateway.route w b (txn_id w) after_ids = (Normal paymentResult, s) ->
  pusher_trigger w "withdrawal-channel" "withdrawal-event" (published w b s) = inr e ->
  let out := Gateway.withdraw w b initial in
  let quiet := Gateway.withdraw (with_pusher w (fun _ _ _ => inl tt)) b initial in
  fst out = Normal (success_response w b paymentResult)
  /\ fst quiet = fst out
  /\ Gateway.success (success_response w b paymentResult) = true
  /\ trace (snd out)
     = (trace s
        ++ [PusherTrigger "withdrawal-channel" "withdrawal-event" (published w b s);
            ConsoleError "Pusher notification error:" (err_message e)])%list.
Proof.
  intros Ha Hlo Hhi Hroute Hpush. cbv zeta.
  rewrite (withdraw_valid w b q Ha Hlo Hhi), Hroute.
  rewrite (withdraw_valid (with_pusher w (fun _ _ _ => inl tt)) b q Ha Hlo Hhi).
  change (Gateway.route (with_pusher w (fun _ _ _ => inl tt)) b
            (txn_id (with_pusher w (fun _ _ _ => inl tt))) after_ids)
    with (Gateway.route w b (txn_id w) after_ids).
  rewrite Hroute. cbn [fst snd].
  repeat split. unfold notified. cbn [trace]. rewrite Hpush. reflexivity.
Qed.

Lemma notifier_failure_is_swallowed_witness :
  let out := Gateway.withdraw mute_world readme_request initial in
  fst out = Normal readme_answer
  /\ fst (Gateway.withdraw calm_world readme_request initial) = fst out
  /\ Gateway.success readme_answer = true
  /\ In (ConsoleError "Pusher notification error:" "Pusher unavailable")
       (trace (snd out)).
Proof.
  cbv zeta.
  destruct (notifier_failure_is_swallowed mute_world readme_request 1000
              (Gateway.StripeResult "stripe" "pi_1" "processing" "pi_1_secret")
              (snd (Gateway.route mute_world readme_request (txn_id mute_world)
                      after_ids))
              (Error "Pusher unavailable"))
    as (H1 & H2 & H3 & H4);
    [reflexivity | literal | literal | reflexivity | reflexivity |].
  split; [exact H1 | split; [exact H2 | split; [exact H3 |]]].
  rewrite H4. apply in_or_app. right. right. left. reflexivity.
Defined.

(** C9: in every success response the paymentGateway field is the
    paymentMethod string of the request when that is truthy and
    "flutterwave" otherwise; and there is a request, with paymentMethod
    "paypal", for which the Flutterwave adapter is the one invoked while the
    response names "paypal" as the gateway. *)
Theorem gateway_field_echoes_payment_method :
  (forall w b resp s,
      Gateway.withdraw w b initial = (Normal resp, s) ->
      Gateway.success resp = true ->
      Gateway.paymentGateway resp
      = Some (if JS.truthy (Gateway.paymentMethod b)
              then JS.to_string (Gateway.paymentMethod b)
              else "flutterwave"))
  /\ (exists w b resp s,
         Gateway.paymentMethod b = Some "paypal"
         /\ Gateway.withdraw w b initial = (Normal resp, s)
         /\ Gateway.success resp = true
         /\ flutterwave_calls s = 1%nat
         /\ stripe_calls s = 0%nat
         /\ Gateway.paymentGateway resp = Some "paypal").
Proof.
  split.
  - intros w b resp s Hrun Hok.
    destruct (withdraw_success_inv w b resp s Hrun Hok)
      as (q & paymentResult & s0 & _ & _ & _ & _ & -> & _).
    unfold success_response. cbn [Gateway.paymentGateway].
    rewrite or_else_spec. reflexivity.
  - exists calm_world,
      (request 1000 (Some "mpesa") (Some "0712345678") (Some "Jane Doe")
         (Some "paypal")).
    eexists. eexists.
    split; [reflexivity |].
    split; [vm_compute; reflexivity |].
    repeat split.
Qed.

Lemma gateway_field_echoes_payment_method_witness :
  Gateway.paymentGateway readme_answer = Some "stripe".
Proof.
  apply (proj1 gateway_field_echoes_payment_method calm_world readme_request
           readme_answer
           (snd (Gateway.withdraw calm_world readme_request initial)));
    [vm_compute; reflexivity | reflexivity].
Defined.

(** C10: the transfer adapter always submits the transfer: its first action
    is the POST, with account_number the phoneNumber when that is truthy and
    "1234567890" otherwise, and beneficiary_name the accountName when that
    is truthy and "Beneficiary" otherwise. Whether it returns or throws is
    decided by the answer to that POST alone, never by a missing recipient
    field. *)
Theorem transfer_adapter_fills_in_recipient w amount phoneNumber accountName t s :
  let out := Gateway.processFlutterwavePayment w amount phoneNumber accountName t s in
  exists body rest,
    trace (snd out) = (trace s ++ AxiosPost transfers_url body (bearer w) :: rest)%list
    /\ flutterwave_calls (snd out) = S (flutterwave_calls s)
    /\ account_number body
       = (if JS.truthy phoneNumber then JS.to_string phoneNumber else "1234567890")
    /\ beneficiary_name body
       = (if JS.truthy accountName then JS.to_string accountName else "Beneficiary")
    /\ fst out
       = match axios_post w transfers_url body (bearer w) with
         | inl (Some data) =>
             Normal (Gateway.FlutterwaveResult "flutterwave" (td_data_id data)
                       (td_status data) t)
         | inl None | inr _ => Throw (Error "Flutterwave processing failed")
         end.
Proof.
  cbv zeta. rewrite processFlutterwavePayment_eq. cbv zeta.
  exists (transfer_of amount phoneNumber accountName t).
  assert (Hpn : account_number (transfer_of amount phoneNumber accountName t)
                = (if JS.truthy phoneNumber then JS.to_string phoneNumber
                   else "1234567890"))
    by apply or_else_spec.
  assert (Han : beneficiary_name (transfer_of amount phoneNumber accountName t)
                = (if JS.truthy accountName then JS.to_string accountName
                   else "Beneficiary"))
    by apply or_else_spec.
  destruct (axios_post w transfers_url (transfer_of amount phoneNumber accountName t)
              (bearer w)) as [[data |] | e];
    cbn [fst snd]; eexists; (split; [reflexivity |]);
    (split; [rewrite flutterwave_calls_sent; simpl; lia |]);
    (split; [exact Hpn |]); (split; [exact Han | reflexivity]).
Qed.

(** ** Further properties of the gateway handler *)

(** Either the amount is refused and nothing has happened, or the request
    is validated. *)
Lemma withdraw_cases w b :
  ((forall q, Gateway.amount b = Some q -> (q < 100)%Q \/ (1000000 < q)%Q)
   /\ exists msg,
        Gateway.withdraw w b initial = (Normal (Gateway.failure 400 msg), initial))
  \/ (exists q, Gateway.amount b = Some q /\ (100 <= q)%Q /\ (q <= 1000000)%Q).
Proof.
  destruct (Gateway.amount b) as [q |] eqn:Ha.
  - destruct (Qlt_le_dec q 100) as [Hlow | Hlo].
    { left. split.
      - intros q0 [= <-]. left. exact Hlow.
      - eexists. exact (withdraw_rejects_low w b q Ha Hlow). }
    destruct (Qlt_le_dec 1000000 q) as [Hhigh | Hhi].
    { left. split.
      - intros q0 [= <-]. right. exact Hhigh.
      - eexists. exact (withdraw_rejects_high w b q Ha Hhigh). }
    right. exists q. repeat split; assumption.
  - left. split; [discriminate |].
    eexists. exact (withdraw_rejects_absent w b Ha).
Qed.







(** X5: the notifier is invoked once when the answer is success and not at
    all when it is not. *)
Theorem notifier_called_iff_success w b resp s :
  Gateway.withdraw w b initial = (Normal resp, s) ->
  pusher_calls s = (if Gateway.success resp then 1 else 0)%nat.
Proof.
  intros Hrun.
  destruct (withdraw_cases w b) as [[_ [msg Hrej]] | (q & Ha & Hlo & Hhi)].
  - rewrite Hrej in Hrun. injection Hrun as <- <-. reflexivity.
  - rewrite (withdraw_valid w b q Ha Hlo Hhi) in Hrun.
    destruct (route_counts w b (txn_id w)) as (Hp & _).
    destruct (Gateway.route w b (txn_id w) after_ids) as [[paymentResult | e] s0];
      cbn [snd] in Hp; injection Hrun as <- <-.
    + destruct (notified_counts w b s0) as (_ & _ & ->). rewrite Hp. reflexivity.
    + rewrite pusher_calls_sent, Hp. reflexivity.
Qed.

Lemma notifier_called_iff_success_witness :
  pusher_calls (snd (Gateway.withdraw calm_world readme_request initial)) = 1%nat
  /\ pusher_calls (snd (Gateway.withdraw stalled_world
                          (request 1000 None None None None) initial)) = 0%nat.
Proof.
  split.
  - apply (notifier_called_iff_success calm_world readme_request readme_answer
             (snd (Gateway.withdraw calm_world readme_request initial))).
    vm_compute. reflexivity.
  - apply (notifier_called_iff_success stalled_world
             (request 1000 None None None None)
             (Gateway.failure 400
                "Payment processing failed: Flutterwave processing failed")
             (snd (Gateway.withdraw stalled_world
                     (request 1000 None None None None) initial))).
    vm_compute. reflexivity.
Defined.

(** The trace of the routing block, from [after_ids]: the call of the
    selected adapter, then console lines only. *)
Lemma route_trace w b t :
  exists rest,
    trace (snd (Gateway.route w b t after_ids))
    = (if JS.strict_eq (Gateway.paymentMethod b) "stripe"
       then StripeCreate (intent_of (Gateway.amount b) (Gateway.accountName b) t)
       else AxiosPost transfers_url
              (transfer_of (Gateway.amount b) (Gateway.phoneNumber b)
                 (Gateway.accountName b) t) (bearer w)) :: rest
    /\ forall e, In e rest -> is_stripe_call e = false /\ is_flutterwave_call e = false.
Proof.
  destruct (JS.strict_eq (Gateway.paymentMethod b) "stripe") eqn:E.
  - apply strict_eq_true in E. rewrite (route_stripe w b t _ E).
    rewrite processStripePayment_eq.
    destruct (stripe_paymentIntents_create w _) as [intent | e0];
      cbn [snd sent trace after_ids app]; eexists; (split; [reflexivity |]);
      simpl; intros e H; repeat destruct H as [<- | H]; try contradiction;
      split; reflexivity.
  - apply strict_eq_false in E. rewrite (route_other w b t _ E).
    rewrite processFlutterwavePayment_eq. cbv zeta.
    destruct (axios_post w _ _ _) as [[data |] | e0];
      cbn [snd sent trace after_ids app]; eexists; (split; [reflexivity |]);
      simpl; intros e H; repeat destruct H as [<- | H]; try contradiction;
      split; reflexivity.
Qed.

(** The trace of a validated request: that of the routing block, then the
    notification or a console line. *)
Lemma withdraw_trace w b q :
  Gateway.amount b = Some q -> (100 <= q)%Q -> (q <= 1000000)%Q ->
  exists tail,
    trace (snd (Gateway.withdraw w b initial))
    = (trace (snd (Gateway.route w b (txn_id w) after_ids)) ++ tail)%list
    /\ forall e, In e tail -> is_stripe_call e = false /\ is_flutterwave_call e = false.
Proof.
  intros Ha Hlo Hhi. rewrite (withdraw_valid w b q Ha Hlo Hhi).
  destruct (Gateway.route w b (txn_id w) after_ids) as [[paymentResult | e0] s];
    cbn [snd notified sent trace]; eexists; (split; [reflexivity |]).
  - intros e H. destruct (pusher_trigger w _ _ _); simpl in H;
      repeat destruct H as [<- | H]; try contradiction; split; reflexivity.
  - intros e H. simpl in H. repeat destruct H as [<- | H]; try contradiction.
    split; reflexivity.
Qed.

(** The one adapter call in the trace of any request. *)
Lemma adapter_call_inv w b e :
  In e (trace (snd (Gateway.withdraw w b initial))) ->
  is_stripe_call e = true \/ is_flutterwave_call e = true ->
  e = (if JS.strict_eq (Gateway.paymentMethod b) "stripe"
       then StripeCreate
              (intent_of (Gateway.amount b) (Gateway.accountName b) (txn_id w))
       else AxiosPost transfers_url
              (transfer_of (Gateway.amount b) (Gateway.phoneNumber b)
                 (Gateway.accountName b) (txn_id w)) (bearer w)).
Proof.
  intros Hin Hcall.
  destruct (withdraw_cases w b) as [[_ [msg Hrej]] | (q & Ha & Hlo & Hhi)].
  - rewrite Hrej in Hin. contradiction.
  - destruct (withdraw_trace w b q Ha Hlo Hhi) as (tail & Htr & Htail).
    destruct (route_trace w b (txn_id w)) as (rest & Hr & Hrest).
    rewrite Htr, Hr in Hin. simpl in Hin.
    destruct Hin as [<- | Hin]; [reflexivity |].
    apply in_app_or in Hin.
    destruct Hin as [Hin | Hin];
      [destruct (Hrest e Hin) as [H1 H2] | destruct (Htail e Hin) as [H1 H2]];
      destruct Hcall; congruence.
Qed.

(** X6: accountNumber and bankCode are never read: two requests that agree
    on the five other fields get the same answer, and the handler sends and
    writes the same for both. *)
Theorem account_number_and_bank_code_are_ignored w b b' :
  Gateway.amount b = Gateway.amount b' ->
  Gateway.accountName b = Gateway.accountName b' ->
  Gateway.withdrawalMethod b = Gateway.withdrawalMethod b' ->
  Gateway.phoneNumber b = Gateway.phoneNumber b' ->
  Gateway.paymentMethod b = Gateway.paymentMethod b' ->
  Gateway.withdraw w b initial = Gateway.withdraw w b' initial.
Proof.
  intros Ha Hn Hm Hp Hpm.
  destruct b as [a an bc n m p pm], b' as [a' an' bc' n' m' p' pm'].
  cbn [Gateway.amount Gateway.accountName Gateway.withdrawalMethod
       Gateway.phoneNumber Gateway.paymentMethod] in *.
  subst a' n' m' p' pm'. reflexivity.
Qed.

Lemma account_number_and_bank_code_are_ignored_witness :
  Gateway.accountNumber readme_request = Some "1234567890"
  /\ Gateway.withdraw calm_world readme_request initial
     = Gateway.withdraw calm_world
         (with_account readme_request (Some "0000000000") None) initial.
Proof.
  split; [reflexivity |].
  apply (account_number_and_bank_code_are_ignored calm_world readme_request
           (with_account readme_request (Some "0000000000") None));
    reflexivity.
Defined.

(** X7: every payment intent the handler creates belongs to a request with
    paymentMethod "stripe"; it is in currency "kes", is described with the
    accountName, carries the transaction id of the request, and is labelled
    withdrawalMethod "bank" whatever the withdrawalMethod of the request. *)
Theorem payment_intent_is_labelled_bank w b p :
  In (StripeCreate p) (trace (snd (Gateway.withdraw w b initial))) ->
  Gateway.paymentMethod b = Some "stripe"
  /\ ip_currency p = "kes"
  /\ ip_description p
     = "Withdrawal " ++ txn_id w ++ " for " ++ JS.to_string (Gateway.accountName b)
  /\ ip_meta_transactionId p = txn_id w
  /\ ip_meta_withdrawalMethod p = "bank".
Proof.
  intros Hin.
  pose proof (adapter_call_inv w b _ Hin (or_introl eq_refl)) as H.
  destruct (JS.strict_eq (Gateway.paymentMethod b) "stripe") eqn:E;
    [| discriminate H].
  injection H as ->. apply strict_eq_true in E. repeat split. exact E.
Qed.

Lemma payment_intent_is_labelled_bank_witness :
  let b := request 1000 (Some "mpesa") (Some "0712345678") (Some "Jane Doe")
             (Some "stripe") in
  let p := intent_of (Some 1000) (Some "Jane Doe") (txn_id calm_world) in
  In (StripeCreate p) (trace (snd (Gateway.withdraw calm_world b initial)))
  /\ Gateway.withdrawalMethod b = Some "mpesa"
  /\ ip_meta_withdrawalMethod p = "bank".
Proof.
  cbv zeta.
  assert (Hin : In (StripeCreate
                      (intent_of (Some 1000) (Some "Jane Doe") (txn_id calm_world)))
                  (trace (snd (Gateway.withdraw calm_world
                                 (request 1000 (Some "mpesa") (Some "0712345678")
                                    (Some "Jane Doe") (Some "stripe")) initial))))
    by (left; reflexivity).
  split; [exact Hin | split; [reflexivity |]].
  exact (proj2 (proj2 (proj2 (proj2
           (payment_intent_is_labelled_bank calm_world _ _ Hin))))).
Defined.

(** X8: every transfer the handler posts belongs to a request whose
    paymentMethod is not "stripe"; it goes to the transfers URL with the
    bearer token of the environment, names bank 999999 whatever the bankCode
    of the request, is in KES for the amount of the request, and has the
    transaction id as its reference and in its narration. *)
Theorem transfer_names_the_demo_bank w b url body authorization :
  In (AxiosPost url body authorization)
    (trace (snd (Gateway.withdraw w b initial))) ->
  Gateway.paymentMethod b <> Some "stripe"
  /\ url = "https://api.flutterwave.com/v3/transfers"
  /\ authorization = "Bearer " ++ JS.to_string (FLUTTERWAVE_SECRET_KEY w)
  /\ account_bank body = "999999"
  /\ tb_currency body = "KES"
  /\ tb_amount body = JS.parseFloat (Gateway.amount b)
  /\ tb_reference body = txn_id w
  /\ narration body = "Withdrawal " ++ txn_id w.
Proof.
  intros Hin.
  pose proof (adapter_call_inv w b _ Hin (or_intror eq_refl)) as H.
  destruct (JS.strict_eq (Gateway.paymentMethod b) "stripe") eqn:E;
    [discriminate H |].
  injection H as -> -> ->. apply strict_eq_false in E. repeat split. exact E.
Qed.

Lemma transfer_names_the_demo_bank_witness :
  let b := {| Gateway.amount := Some 1000;
              Gateway.accountNumber := Some "1234567890";
              Gateway.bankCode := Some "01";
              Gateway.accountName := Some "John Doe";
              Gateway.withdrawalMethod := Some "bank";
              Gateway.phoneNumber := None;
              Gateway.paymentMethod := Some "flutterwave" |} in
  let body := transfer_of (Some 1000) None (Some "John Doe") (txn_id calm_world) in
  In (AxiosPost transfers_url body (bearer calm_world))
    (trace (snd (Gateway.withdraw calm_world b initial)))
  /\ Gateway.bankCode b = Some "01"
  /\ account_bank body = "999999".
Proof.
  cbv zeta.
  match goal with |- ?I /\ _ => assert (Hin : I) by (left; reflexivity) end.
  split; [exact Hin | split; [reflexivity |]].
  exact (proj1 (proj2 (proj2 (proj2
           (transfer_names_the_demo_bank calm_world _ _ _ _ Hin))))).
Defined.

(** ** Conversion to minor units *)




(** ** What the client learns of a provider failure *)

(** X10: when the POST to the transfer network is rejected, for whatever
    reason, the client gets the fixed message "Payment processing failed:
    Flutterwave processing failed" with HTTP 400; the upstream detail (the
    response data when there is one, the error message otherwise) goes to
    the console only. *)
Theorem transfer_failure_is_opaque w b q e :
  Gateway.amount b = Some q -> (100 <= q)%Q -> (q <= 1000000)%Q ->
  Gateway.paymentMethod b <> Some "stripe" ->
  axios_post w transfers_url
    (transfer_of (Gateway.amount b) (Gateway.phoneNumber b) (Gateway.accountName b)
       (txn_id w))
    (bearer w) = inr e ->
  let out := Gateway.withdraw w b initial in
  fst out
  = Normal (Gateway.failure 400
              "Payment processing failed: Flutterwave processing failed")
  /\ In (ConsoleError "Flutterwave API error:"
           (if JS.truthy (err_response_data e)
            then JS.to_string (err_response_data e)
            else err_message e))
       (trace (snd out)).
Proof.
  intros Ha Hlo Hhi Hpm Hpost. cbv zeta.
  rewrite (withdraw_valid w b q Ha Hlo Hhi), (route_other w b _ _ Hpm).
  rewrite processFlutterwavePayment_eq. cbv zeta. rewrite Hpost.
  split; [reflexivity |].
  cbn [snd sent trace after_ids app]. rewrite or_else_spec.
  right. left. reflexivity.
Qed.

Lemma transfer_failure_is_opaque_witness :
  let out := Gateway.withdraw stalled_world
               (request 1000 (Some "mpesa") (Some "0712345678") None None) initial in
  fst out
  = Normal (Gateway.failure 400
              "Payment processing failed: Flutterwave processing failed")
  /\ In (ConsoleError "Flutterwave API error:" "timeout of 1000ms exceeded")
       (trace (snd out)).
Proof.
  apply (transfer_failure_is_opaque stalled_world
           (request 1000 (Some "mpesa") (Some "0712345678") None None) 1000
           timeout_error);
    [reflexivity | literal | literal | discriminate | reflexivity].
Defined.

(** X11: when the card processor rejects the payment intent, its error
    message reaches the client verbatim, after the two prefixes
    "Payment processing failed: " and "Stripe error: ", with HTTP 400. *)
Theorem card_failure_is_forwarded w b q e :
  Gateway.amount b = Some q -> (100 <= q)%Q -> (q <= 1000000)%Q ->
  Gateway.paymentMethod b = Some "stripe" ->
  stripe_paymentIntents_create w
    (intent_of (Gateway.amount b) (Gateway.accountName b) (txn_id w)) = inr e ->
  fst (Gateway.withdraw w b initial)
  = Normal (Gateway.failure 400
              ("Payment processing failed: " ++ "Stripe error: " ++ err_message e)).
Proof.
  intros Ha Hlo Hhi Hpm Hcreate.
  rewrite (withdraw_valid w b q Ha Hlo Hhi), (route_stripe w b _ _ Hpm).
  rewrite processStripePayment_eq, Hcreate. reflexivity.
Qed.

Lemma card_failure_is_forwarded_witness :
  fst (Gateway.withdraw declined_world readme_request initial)
  = Normal (Gateway.failure 400
              "Payment processing failed: Stripe error: Your card was declined.").
Proof.
  apply (card_failure_is_forwarded declined_world readme_request 1000
           (Error "Your card was declined."));
    [reflexivity | literal | literal | reflexivity | reflexivity].
Defined.

(** ** Shape of the identifiers *)

Lemma substr_length (start len : nat) (s : string) :
  (String.length (JS.substr start len s) <= len)%nat.
Proof.
  unfold JS.substr. revert start len.
  induction s as [| c s IH]; intros start len.
  - destruct start, len; simpl; lia.
  - destruct start as [| start].
    + destruct len as [| len]; simpl; [lia |].
      specialize (IH 0%nat len). lia.
    + simpl. apply IH.
Qed.

Lemma toUpperCase_length (s : string) :
  String.length (JS.toUpperCase s) = String.length s.
Proof. induction s as [| c s IH]; simpl; [reflexivity | now rewrite IH]. Qed.

Lemma upper_is_not_lower_case (c : ascii) :
  (97 <=? nat_of_ascii (JS.upper c))%nat && (nat_of_ascii (JS.upper c) <=? 122)%nat
  = false.
Proof. destruct c as [[] [] [] [] [] [] [] []]; reflexivity. Qed.

Lemma toUpperCase_no_lower_case (s : string) :
  no_lower_case (JS.toUpperCase s) = true.
Proof.
  induction s as [| c s IH]; [reflexivity |].
  cbn [JS.toUpperCase no_lower_case].
  rewrite upper_is_not_lower_case, IH. reflexivity.
Qed.

(** X12: in every success response the transactionId is "TXN_", the first
    clock reading, "_" and a suffix of at most nine characters without
    lower-case letters; the reference is "REF_" and the second clock
    reading. *)
Theorem identifiers_have_fixed_shape w b resp s :
  Gateway.withdraw w b initial = (Normal resp, s) ->
  Gateway.success resp = true ->
  Gateway.transactionId resp
  = Some ("TXN_" ++ number_toString w (inject_Z (date_now w 0)) ++ "_"
          ++ txn_suffix w)
  /\ (String.length (txn_suffix w) <= 9)%nat
  /\ no_lower_case (txn_suffix w) = true
  /\ Gateway.reference resp
     = Some ("REF_" ++ number_toString w (inject_Z (date_now w 1))).
Proof.
  intros Hrun Hok.
  destruct (withdraw_success_inv w b resp s Hrun Hok)
    as (q & paymentResult & s0 & _ & _ & _ & _ & -> & _).
  split; [reflexivity |].
  split; [unfold txn_suffix; rewrite toUpperCase_length; apply substr_length |].
  split; [apply toUpperCase_no_lower_case | reflexivity].
Qed.

Lemma identifiers_have_fixed_shape_witness :
  Gateway.transactionId readme_answer = Some "TXN_1700000000000_I"
  /\ Gateway.reference readme_answer = Some "REF_1700000000001".
Proof.
  destruct (identifiers_have_fixed_shape calm_world readme_request readme_answer
              (snd (Gateway.withdraw calm_world readme_request initial)))
    as (H1 & _ & _ & H2); [vm_compute; reflexivity | reflexivity |].
  split; [exact H1 | exact H2].
Defined.

(** ** Further properties of the legacy handler *)

(** The processing step always answers; it writes the delay and one console
    line, and its outcome follows the second random draw. *)
Lemma settle_spec w b s :
  exists resp line,
    Legacy.settle w b s
    = (Normal resp,
       {| clock_reads :=
            (if JS.gtb (math_random w (S (random_reads s))) (1 # 10)
             then 3 + clock_reads s else 1 + clock_reads s)%nat;
          random_reads := (2 + random_reads s)%nat;
          trace := trace s ++ [Sleep 1500; ConsoleLog line] |})
    /\ Legacy.transactionId resp
       = Some ("txn_" ++ number_toString w (inject_Z (date_now w (clock_reads s)))
               ++ "_"
               ++ JS.substr 2 9 (number_toString36 w (math_random w (random_reads s))))
    /\ (if JS.gtb (math_random w (S (random_reads s))) (1 # 10)
        then Legacy.success resp = true
             /\ Legacy.message resp
                = "Withdrawal of KES " ++ Legacy.amount_toString w (Legacy.amount b)
                  ++ " processed successfully!"
             /\ Legacy.fees resp
                = Some (if JS.strict_eq (Legacy.method b) "bank" then 50 else 25)
             /\ Legacy.netAmount resp
                = Some (JS.minus (JS.to_number (Legacy.amount b))
                          (if JS.strict_eq (Legacy.method b) "bank" then 50 else 25))
             /\ Legacy.r_amount resp = Legacy.amount b
             /\ Legacy.status resp = Some "completed"
        else Legacy.success resp = false
             /\ Legacy.message resp = "Payment processing failed. Please try again."
             /\ Legacy.fees resp = None
             /\ Legacy.netAmount resp = None
             /\ Legacy.status resp = Some "failed").
Proof.
  unfold Legacy.settle, bind. rewrite emit_sent.
  unfold Date_now at 1. cbn [sent clock_reads random_reads trace].
  unfold Math_random at 1 2. cbn [clock_reads random_reads trace].
  destruct (JS.gtb (math_random w (S (random_reads s))) (1 # 10)).
  - rewrite emit_sent. unfold new_Date_toISOString, Date_now, ret.
    cbn [sent clock_reads random_reads trace].
    eexists. eexists. split.
    + rewrite <- app_assoc. reflexivity.
    + repeat split.
  - rewrite emit_sent. unfold ret, sent.
    cbn [clock_reads random_reads trace].
    eexists. eexists. split.
    + rewrite <- app_assoc. reflexivity.
    + repeat split.
Qed.

Lemma includes_bank_mpesa (m : option string) :
  JS.includes ["bank"; "mpesa"] m = true ->
  JS.strict_eq m "bank" = false -> JS.strict_eq m "mpesa" = true.
Proof.
  unfold JS.includes. cbn [existsb]. intros H Hb. rewrite Hb in H.
  rewrite orb_false_r in H. exact H.
Qed.

Lemma good_phone (pn : option string) :
  Legacy.bad_phone pn = false ->
  exists p, pn = Some p /\ JS.test_10_digits p = true.
Proof.
  unfold Legacy.bad_phone. intros H. apply orb_false_iff in H.
  destruct H as [Ht Hd]. destruct pn as [p |]; [| discriminate Ht].
  exists p. split; [reflexivity |].
  apply negb_false_iff in Hd. exact Hd.
Qed.

(** Every request is either refused by one of the five reachable checks,
    with nothing but the request line written, or handed to the processing
    step. *)
Lemma legacy_cases w b :
  (exists msg,
      Legacy.withdraw w b initial = (Normal (Legacy.failure msg), legacy_logged)
      /\ (msg = "Amount must be at least KES 100"
          \/ msg = "Insufficient balance. Available: KES "
                   ++ number_toString w Legacy.demoBalance
          \/ msg = "Please select withdrawal method (bank or mpesa)"
          \/ msg = "Bank account details required"
          \/ msg = "Valid 10-digit M-Pesa number required"))
  \/ (exists q,
         Legacy.amount b = Some q /\ (100 <= q)%Q /\ (q <= Legacy.demoBalance)%Q
         /\ legacy_details_ok b
         /\ Legacy.withdraw w b initial = Legacy.settle w b legacy_logged).
Proof.
  unfold Legacy.withdraw, try_catch, bind. rewrite emit_sent. fold legacy_logged.
  destruct (negb (JS.truthy_num (Legacy.amount b)) || JS.lt (Legacy.amount b) 100)
    eqn:E1.
  { left. eexists. split; [reflexivity |]. left. reflexivity. }
  destruct (JS.gt (Legacy.amount b) Legacy.demoBalance) eqn:E2.
  { left. eexists. split; [reflexivity |]. right. left. reflexivity. }
  destruct (Legacy.amount b) as [q |] eqn:Ha; [| discriminate E1].
  apply orb_false_iff in E1. destruct E1 as [_ E1].
  apply ltb_false in E1. apply ltb_false in E2.
  rewrite (high_check_passes q 1000000)
    by (eapply Qle_trans; [exact E2 | unfold Legacy.demoBalance; discriminate]).
  destruct (negb (JS.truthy (Legacy.method b))
            || negb (JS.includes ["bank"; "mpesa"] (Legacy.method b))) eqn:E4.
  { left. eexists. split; [reflexivity |]. right. right. left. reflexivity. }
  apply orb_false_iff in E4. destruct E4 as [_ E4]. apply negb_false_iff in E4.
  destruct (settle_spec w b legacy_logged) as (resp & line & Hsettle & _).
  destruct (JS.strict_eq (Legacy.method b) "bank") eqn:Eb.
  - destruct (negb (JS.truthy (Legacy.accountDetails b))
              || negb (JS.truthy (Legacy.accountName b))) eqn:E5.
    { left. eexists. split; [reflexivity |]. do 3 right. left. reflexivity. }
    right. exists q. apply orb_false_iff in E5. destruct E5 as [Hd Hn].
    apply negb_false_iff in Hd, Hn. apply strict_eq_true in Eb.
    repeat split; try assumption.
    + left. repeat split; assumption.
    + rewrite Hsettle. reflexivity.
  - pose proof (includes_bank_mpesa _ E4 Eb) as Em. rewrite Em.
    destruct (Legacy.bad_phone (Legacy.phoneNumber b)) eqn:E6.
    { left. eexists. split; [reflexivity |]. do 4 right. reflexivity. }
    right. exists q. apply strict_eq_true in Em.
    repeat split; try assumption.
    + right. split; [exact Em | exact (good_phone _ E6)].
    + rewrite Hsettle. reflexivity.
Qed.

(** X13: the legacy handler always answers and never reaches a provider or
    the notifier: whatever the request, no payment intent, no transfer and
    no event is sent. *)
Theorem legacy_never_calls_out w b :
  exists resp s,
    Legacy.withdraw w b initial = (Normal resp, s)
    /\ adapter_calls s = 0%nat /\ pusher_calls s = 0%nat.
Proof.
  destruct (legacy_cases w b) as [(msg & -> & _) | (q & _ & _ & _ & _ & ->)].
  - eexists. eexists. split; [reflexivity |]. split; reflexivity.
  - destruct (settle_spec w b legacy_logged) as (resp & line & -> & _).
    eexists. eexists. split; [reflexivity |]. split; reflexivity.
Qed.

(** X14: every amount above the demo balance of 100,000 is answered with
    the insufficient-balance message, amounts above 1,000,000 included. *)
Theorem legacy_refuses_above_balance w b q :
  Legacy.amount b = Some q -> (Legacy.demoBalance < q)%Q ->
  Legacy.withdraw w b initial
  = (Normal (Legacy.failure ("Insufficient balance. Available: KES "
                             ++ number_toString w Legacy.demoBalance)),
     legacy_logged).
Proof.
  intros Ha Hq.
  assert (Hlo : (100 <= q)%Q).
  { apply Qlt_le_weak. eapply Qlt_trans; [| exact Hq]. reflexivity. }
  unfold Legacy.withdraw, try_catch, bind. rewrite emit_sent.
  rewrite Ha, (low_check_passes q Hlo), (proj2 (high_check q _) Hq). reflexivity.
Qed.

Lemma legacy_refuses_above_balance_witness :
  fst (Legacy.withdraw calm_world
         (legacy_request 2000000 (Some "bank") (Some "1234567890") None
            (Some "John Doe")) initial)
  = Normal (Legacy.failure "Insufficient balance. Available: KES 100000").
Proof.
  rewrite (legacy_refuses_above_balance calm_world
             (legacy_request 2000000 (Some "bank") (Some "1234567890") None
                (Some "John Doe")) 2000000);
    [reflexivity | reflexivity | literal].
Defined.

(** X15: no request is answered with the message of the 1,000,000 limit:
    the check behind the balance check can never fire. *)
Theorem legacy_maximum_is_never_reported w b :
  exists resp s,
    Legacy.withdraw w b initial = (Normal resp, s)
    /\ Legacy.message resp <> "Maximum withdrawal is KES 1,000,000".
Proof.
  destruct (legacy_cases w b) as [(msg & -> & Hmsg) | (q & _ & _ & _ & _ & ->)].
  - eexists. eexists. split; [reflexivity |]. cbn [Legacy.message Legacy.failure].
    destruct Hmsg as [-> | [-> | [-> | [-> | ->]]]]; discriminate.
  - destruct (settle_spec w b legacy_logged) as (resp & line & -> & _ & Hout).
    eexists. eexists. split; [reflexivity |].
    destruct (JS.gtb _ _).
    + destruct Hout as (_ & -> & _). discriminate.
    + destruct Hout as (_ & -> & _). discriminate.
Qed.

(** A request that passes every check reaches the processing step. *)
Lemma legacy_through w b q :
  Legacy.amount b = Some q -> (100 <= q)%Q -> (q <= Legacy.demoBalance)%Q ->
  legacy_details_ok b ->
  Legacy.withdraw w b initial = Legacy.settle w b legacy_logged.
Proof.
  intros Ha Hlo Hhi Hok.
  destruct (legacy_amount_passes b q Ha Hlo Hhi) as (E1 & E2 & E3).
  destruct (settle_spec w b legacy_logged) as (resp & line & Hs & _).
  unfold Legacy.withdraw, try_catch, bind. rewrite emit_sent.
  fold legacy_logged. rewrite E1, E2, E3.
  destruct Hok as [(Hm & Hd & Hn) | (Hm & p & Hp & Ht)]; rewrite Hm.
  - assert (H1 : negb (JS.truthy (Some "bank"))
                 || negb (JS.includes ["bank"; "mpesa"] (Some "bank")) = false)
      by reflexivity.
    assert (H2 : JS.strict_eq (Some "bank") "bank" = true) by reflexivity.
    rewrite H1, H2, Hd, Hn. cbn [negb orb]. rewrite Hs. reflexivity.
  - assert (H1 : negb (JS.truthy (Some "mpesa"))
                 || negb (JS.includes ["bank"; "mpesa"] (Some "mpesa")) = false)
      by reflexivity.
    assert (H2 : JS.strict_eq (Some "mpesa") "bank" = false) by reflexivity.
    assert (H3 : JS.strict_eq (Some "mpesa") "mpesa" = true) by reflexivity.
    assert (H4 : Legacy.bad_phone (Legacy.phoneNumber b) = false).
    { unfold Legacy.bad_phone. rewrite Hp. cbn [JS.to_string]. rewrite Ht.
      destruct p; [discriminate Ht | reflexivity]. }
    rewrite H1, H2, H3, H4, Hs. reflexivity.
Qed.

(** X16: a request that passes every check of the legacy handler gets a
    transaction id, and its outcome follows the second random draw alone:
    above one tenth the answer is success with fees 50 for bank and 25 for
    mpesa, netAmount = amount - fees and status "completed"; at one tenth or
    below it is success=false with status "failed" and no fees. *)
Theorem legacy_outcome_follows_second_draw w b q :
  Legacy.amount b = Some q -> (100 <= q)%Q -> (q <= Legacy.demoBalance)%Q ->
  legacy_details_ok b ->
  exists resp s,
    Legacy.withdraw w b initial = (Normal resp, s)
    /\ Legacy.transactionId resp = Some (legacy_txn_id w)
    /\ ((1 # 10 < math_random w 1)%Q ->
        Legacy.success resp = true
        /\ Legacy.fees resp
           = Some (if JS.strict_eq (Legacy.method b) "bank" then 50 else 25)
        /\ Legacy.netAmount resp
           = Some (JS.Num (q - (if JS.strict_eq (Legacy.method b) "bank"
                                then 50 else 25)))
        /\ Legacy.status resp = Some "completed")
    /\ ((math_random w 1 <= 1 # 10)%Q ->
        Legacy.success resp = false
        /\ Legacy.message resp = "Payment processing failed. Please try again."
        /\ Legacy.fees resp = None
        /\ Legacy.status resp = Some "failed").
Proof.
  intros Ha Hlo Hhi Hok.
  rewrite (legacy_through w b q Ha Hlo Hhi Hok).
  destruct (settle_spec w b legacy_logged) as (resp & line & -> & Hid & Hout).
  exists resp. eexists. split; [reflexivity |].
  split; [exact Hid |].
  cbn [legacy_logged sent random_reads initial] in Hout.
  rewrite Ha in Hout. cbn [JS.to_number JS.minus] in Hout.
  split; intros Hr.
  - rewrite (proj2 (ltb_true _ _) Hr : JS.gtb _ _ = true) in Hout.
    destruct Hout as (H1 & _ & H2 & H3 & _ & H4). repeat split; assumption.
  - rewrite (proj2 (ltb_false _ _) Hr : JS.gtb _ _ = false) in Hout.
    destruct Hout as (H1 & H2 & H3 & _ & H4). repeat split; assumption.
Qed.

Lemma legacy_outcome_follows_second_draw_witness :
  let b := legacy_request 1000 (Some "mpesa") None (Some "0712345678") None in
  exists resp s,
    Legacy.withdraw calm_world b initial = (Normal resp, s)
    /\ Legacy.success resp = true
    /\ Legacy.fees resp = Some 25
    /\ Legacy.netAmount resp = Some (JS.Num (1000 - 25)).
Proof.
  cbv zeta.
  destruct (legacy_outcome_follows_second_draw calm_world
              (legacy_request 1000 (Some "mpesa") None (Some "0712345678") None)
              1000)
    as (resp & s & Hrun & _ & Hwin & _);
    [reflexivity | literal | literal
    | right; split; [reflexivity | exists "0712345678"; split; reflexivity] |].
  exists resp, s. split; [exact Hrun |].
  destruct Hwin as (H1 & H2 & H3 & _); [reflexivity |].
  split; [exact H1 | split; [exact H2 | exact H3]].
Defined.

(** ** The deposit handler *)

Lemma deposit_valid w create b q :
  Deposit.amount b = Some q -> (100 <= q)%Q -> (q <= 500000)%Q ->
  Deposit.deposit w create b
  = match create (Deposit.session_for w q (Deposit.returnUrl b)) with
    | inl session =>
        ({| Deposit.success := true;
            Deposit.message := "Deposit session created";
            Deposit.sessionId := Some (Deposit.session_id session);
            Deposit.url := Some (Deposit.session_url session);
            Deposit.r_amount := Some q |},
         [Deposit.CheckoutCreate (Deposit.session_for w q (Deposit.returnUrl b))])
    | inr error =>
        (Deposit.failure ("Failed to create deposit: " ++ err_message error),
         [Deposit.CheckoutCreate (Deposit.session_for w q (Deposit.returnUrl b));
          Deposit.Console (ConsoleError "Deposit error:" (err_message error))])
    end.
Proof.
  intros Ha Hlo Hhi. unfold Deposit.deposit.
  rewrite Ha, (low_check_passes q Hlo), (high_check_passes q _ Hhi).
  destruct (create _); reflexivity.
Qed.

Lemma deposit_cases w create b :
  ((forall q, Deposit.amount b = Some q -> (q < 100)%Q \/ (500000 < q)%Q)
   /\ exists msg,
        Deposit.deposit w create b = (Deposit.failure msg, [])
        /\ (msg = "Minimum deposit is KES 100"
            \/ msg = "Maximum deposit is KES 500,000"))
  \/ (exists q, Deposit.amount b = Some q /\ (100 <= q)%Q /\ (q <= 500000)%Q).
Proof.
  destruct (Deposit.amount b) as [q |] eqn:Ha.
  - destruct (Qlt_le_dec q 100) as [Hlow | Hlo].
    { left. split; [intros q0 [= <-]; left; exact Hlow |].
      eexists. split; [| left; reflexivity].
      unfold Deposit.deposit. rewrite Ha, (low_check_rejects q Hlow). reflexivity. }
    destruct (Qlt_le_dec 500000 q) as [Hhigh | Hhi].
    { left. split; [intros q0 [= <-]; right; exact Hhigh |].
      eexists. split; [| right; reflexivity].
      unfold Deposit.deposit.
      rewrite Ha, (low_check_passes q Hlo), (proj2 (high_check q _) Hhigh).
      reflexivity. }
    right. exists q. repeat split; assumption.
  - left. split; [discriminate |].
    eexists. split; [| left; reflexivity].
    unfold Deposit.deposit. rewrite Ha. reflexivity.
Qed.


(** X18: the session sent to Stripe Checkout uses the returnUrl of the
    request, when it is truthy, for both the success and the cancel URL, so
    the two coincide; without one, the two distinct default pages are
    used. *)
Theorem return_url_serves_success_and_cancel w create b p :
  In (Deposit.CheckoutCreate p) (snd (Deposit.deposit w create b)) ->
  Deposit.success_url p
  = (if JS.truthy (Deposit.returnUrl b) then JS.to_string (Deposit.returnUrl b)
     else "https://bank-front-chi.vercel.app/?success=true&type=deposit")
  /\ Deposit.cancel_url p
     = (if JS.truthy (Deposit.returnUrl b) then JS.to_string (Deposit.returnUrl b)
        else "https://bank-front-chi.vercel.app/?canceled=true")
  /\ (if JS.truthy (Deposit.returnUrl b)
      then Deposit.success_url p = Deposit.cancel_url p
      else Deposit.success_url p <> Deposit.cancel_url p).
Proof.
  intros Hin.
  destruct (deposit_cases w create b)
    as [[_ (msg & Hrun & _)] | (q & Ha & Hlo & Hhi)].
  - rewrite Hrun in Hin. contradiction.
  - rewrite (deposit_valid w create b q Ha Hlo Hhi) in Hin.
    assert (Hp : p = Deposit.session_for w q (Deposit.returnUrl b)).
    { destruct (create _); simpl in Hin;
        repeat destruct Hin as [Hin | Hin]; try contradiction;
        try discriminate Hin; injection Hin as <-; reflexivity. }
    subst p. cbn [Deposit.session_for Deposit.success_url Deposit.cancel_url].
    rewrite !or_else_spec.
    destruct (JS.truthy (Deposit.returnUrl b)); repeat split. discriminate.
Qed.

Lemma return_url_serves_success_and_cancel_witness :
  let b := {| Deposit.amount := Some 1000;
              Deposit.returnUrl := Some "https://example.org/back" |} in
  let p := Deposit.session_for calm_world 1000 (Some "https://example.org/back") in
  In (Deposit.CheckoutCreate p) (snd (Deposit.deposit calm_world calm_checkout b))
  /\ Deposit.success_url p = "https://example.org/back"
  /\ Deposit.cancel_url p = "https://example.org/back".
Proof.
  cbv zeta.
  match goal with |- ?I /\ _ => assert (Hin : I) by (left; reflexivity) end.
  split; [exact Hin |].
  destruct (return_url_serves_success_and_cancel calm_world calm_checkout _ _ Hin)
    as (H1 & H2 & _).
  split; [exact H1 | exact H2].
Defined.

(** X19: for an amount in [100, 500,000] the deposit handler answers
    success exactly when Stripe Checkout returned a session, echoing the
    session id, its URL and the amount; when Stripe rejected the session the
    answer is success=false with "Failed to create deposit: " and the
    message of the error, which is also written to the console. *)
Theorem deposit_outcome_follows_checkout w create b q :
  Deposit.amount b = Some q -> (100 <= q)%Q -> (q <= 500000)%Q ->
  let out := Deposit.deposit w create b in
  match create (Deposit.session_for w q (Deposit.returnUrl b)) with
  | inl session =>
      Deposit.success (fst out) = true
      /\ Deposit.sessionId (fst out) = Some (Deposit.session_id session)
      /\ Deposit.url (fst out) = Some (Deposit.session_url session)
      /\ Deposit.r_amount (fst out) = Some q
      /\ snd out = [Deposit.CheckoutCreate
                      (Deposit.session_for w q (Deposit.returnUrl b))]
  | inr error =>
      Deposit.success (fst out) = false
      /\ Deposit.message (fst out) = "Failed to create deposit: " ++ err_message error
      /\ Deposit.sessionId (fst out) = None
      /\ In (Deposit.Console (ConsoleError "Deposit error:" (err_message error)))
           (snd out)
  end.
Proof.
  intros Ha Hlo Hhi. cbv zeta. rewrite (deposit_valid w create b q Ha Hlo Hhi).
  destruct (create _) as [session | error]; cbn [fst snd].
  - repeat split.
  - repeat split. right. left. reflexivity.
Qed.

Lemma deposit_outcome_follows_checkout_witness :
  let b := {| Deposit.amount := Some 1000; Deposit.returnUrl := None |} in
  Deposit.success (fst (Deposit.deposit calm_world calm_checkout b)) = true
  /\ Deposit.sessionId (fst (Deposit.deposit calm_world calm_checkout b))
     = Some "cs_test_1"
  /\ Deposit.success
       (fst (Deposit.deposit calm_world (fun _ => inr timeout_error) b)) = false
  /\ Deposit.message
       (fst (Deposit.deposit calm_world (fun _ => inr timeout_error) b))
     = "Failed to create deposit: timeout of 1000ms exceeded".
Proof.
  cbv zeta.
  pose proof (deposit_outcome_follows_checkout calm_world calm_checkout
                {| Deposit.amount := Some 1000; Deposit.returnUrl := None |} 1000)
    as Hok.
  pose proof (deposit_outcome_follows_checkout calm_world
                (fun _ => inr timeout_error)
                {| Deposit.amount := Some 1000; Deposit.returnUrl := None |} 1000)
    as Hko.
  cbv zeta in Hok, Hko.
  destruct Hok as (H1 & H2 & _); [reflexivity | literal | literal |].
  destruct Hko as (H3 & H4 & _); [reflexivity | literal | literal |].
  repeat split; assumption.
Defined.
